(** * Kubernetes cluster node pool resource: reconciliation and validation

    A shallow embedding of
    [azurerm/internal/services/containers/kubernetes_cluster_node_pool_resource.go]
    and the properties of its create / read / update paths.

    Conventions of the embedding:
    - Go [int] values read from the resource data are [Z]; the conversion
      [int32(x)] is written out as two's complement wrap-around ([int32]).
    - Go [float64] is the IEEE-754 model [spec_float] of the standard library.
    - Pointer fields of the SDK structs ([*int32], [*string], [*bool],
      [*[]string]) are [option]; [nil] is [None].
    - [map[string]*string] is [option (gmap string (option string))]: the
      outer [None] is the nil map, the inner [None] a nil value pointer.
    - Remote calls are the constructors of a small command tree ([prog]); an
      arbitrary remote side is a [handler] and running a program against it
      yields the result together with the log of the calls it issued. *)

From Stdlib Require Import ZArith String List Lia.
From Stdlib Require Import Floats.SpecFloat.
From stdpp Require Import gmap strings.

Local Open Scope Z_scope.
Local Open Scope string_scope.

(** ** Numeric types *)

(** Go's [int32(x)] for a 64-bit [x]: keep the low 32 bits, signed. *)
Definition int32 (x : Z) : Z := (x + 2 ^ 31) mod 2 ^ 32 - 2 ^ 31.

Definition float64 : Type := spec_float.

(** The float64 constant [0]. *)
Definition float_zero : float64 := S754_zero false.

(** Go's [x != 0] on float64: the IEEE comparison, so both signed zeros
    compare equal to [0] and a NaN compares unequal. *)
Definition float_ne_zero (x : float64) : bool := negb (SFeqb x float_zero).

#[global] Instance float64_eq_dec : EqDecision float64.
Proof. unfold float64. solve_decision. Defined.

(** ** Constants of the containerservice SDK (string-typed enums) *)

Definition Linux : string := "Linux".
Definition Windows : string := "Windows".
Definition Regular : string := "Regular".
Definition Spot : string := "Spot".
Definition Delete : string := "Delete".
Definition Deallocate : string := "Deallocate".
Definition VirtualMachineScaleSets : string := "VirtualMachineScaleSets".
Definition AvailabilitySet : string := "AvailabilitySet".

(** ** The declared configuration

    One field per key of the resource schema, holding what [d.Get(key)]
    returns: the zero value of the type when the key is not set. *)

Record Config : Type := mkConfig {
  name : string;
  kubernetes_cluster_id : string;
  node_count : Z;
  tags : gmap string string;
  vm_size : string;
  availability_zones : list string;
  enable_auto_scaling : bool;
  enable_node_public_ip : bool;
  max_count : Z;
  max_pods : Z;
  min_count : Z;
  node_labels : gmap string string;
  node_taints : list string;
  os_disk_size_gb : Z;
  os_type : string;
  vnet_subnet_id : string;
  priority : string;
  eviction_policy : string;
  max_bid_price : float64
}.

(** The [ValidateFunc]s of the schema that constrain values by themselves.
    A validator only runs on a value that is set, so an optional integer is
    either the zero value or inside the validated range.  [max_pods] and the
    collections carry no validator.  ([name], [kubernetes_cluster_id],
    [vnet_subnet_id] and [max_bid_price] are validated by functions of other
    packages; nothing below depends on them.) *)
Definition IntBetween (lo hi x : Z) : Prop := lo <= x <= hi.
Definition IntAtLeast (lo x : Z) : Prop := lo <= x.

Record schema_ok (c : Config) : Prop := mkSchemaOk {
  ok_node_count : node_count c = 0 \/ IntBetween 1 100 (node_count c);
  ok_max_count : max_count c = 0 \/ IntBetween 1 100 (max_count c);
  ok_min_count : min_count c = 0 \/ IntBetween 1 100 (min_count c);
  ok_os_disk_size_gb : os_disk_size_gb c = 0 \/ IntAtLeast 1 (os_disk_size_gb c);
  ok_vm_size : vm_size c <> "";
  ok_os_type : os_type c = Linux \/ os_type c = Windows;
  ok_priority : priority c = Regular \/ priority c = Spot;
  ok_eviction_policy :
    eviction_policy c = "" \/ eviction_policy c = Delete \/ eviction_policy c = Deallocate
}.

(** ** Errors

    One constructor per [return] of an error in the source; the pre-flight
    and validation errors carry their message. *)

Inductive error : Type :=
| ParseError (msg : string)
| ErrorsNew (msg : string)
| ClusterNotFound
| RetrievingExistingCluster
| DefaultPoolNotVMSS
| CheckingPresence
| ImportAsExistsError (id : string)
| Errorf (msg : string)
| CreatingPool
| WaitingForCompletion
| RetrievingPool
| CannotReadID
| NodePoolNotFound
| RetrievingNodePool
| PropertiesNil
| UpdatingPool
| WaitingForUpdate
| RetrievingManagedCluster
| DeletingPool
| WaitingForDeletion.

Definition error_message (e : error) : string :=
  match e with
  | ParseError m | ErrorsNew m | Errorf m => m
  | _ => ""
  end.

(** ** Pre-flight cross-field check ([customizeDiff]) *)

(** The second result of [d.GetOk]: the key holds a value other than the zero
    value of its type. *)
Definition GetOk_string (v : string) : bool := negb (String.eqb v "").
Definition GetOk_float (v : float64) : bool := float_ne_zero v.

Definition msg_max_bid_price : string :=
  "`priority` must be set to `Spot` if `max_bid_price` is specified".
Definition msg_eviction_policy : string :=
  "`priority` must be set to `Spot` if `eviction_policy` is specified".

Definition customizeDiff (d : Config) : option error :=
  let priority_ := priority d in
  let hasEvictionPolicy := GetOk_string (eviction_policy d) in
  let hasMaxBidPrice := GetOk_float (max_bid_price d) in
  let errMsg := "" in
  let errMsg :=
    if String.eqb priority_ Regular then
      let errMsg := if hasMaxBidPrice then msg_max_bid_price else errMsg in
      if hasEvictionPolicy then
        if negb (String.eqb errMsg "") then errMsg ++ ", " ++ msg_eviction_policy
        else msg_eviction_policy
      else errMsg
    else errMsg in
  if negb (String.eqb errMsg "") then Some (ErrorsNew errMsg) else None.

(** ** SDK structs *)

(** [containerservice.ManagedClusterAgentPoolProfileProperties], restricted to
    the fields this resource reads or writes.  The zero value of a
    string-typed enum is the empty string. *)
Record ManagedClusterAgentPoolProfileProperties : Type := mkProfile {
  Count : option Z;
  VMSize : string;
  OsDiskSizeGB : option Z;
  VnetSubnetID : option string;
  MaxPods : option Z;
  OsType : string;
  MaxCount : option Z;
  MinCount : option Z;
  EnableAutoScaling : option bool;
  Type_ : string;
  AvailabilityZones : option (list string);
  EnableNodePublicIP : option bool;
  ScaleSetPriority : string;
  ScaleSetEvictionPolicy : string;
  SpotMaxPrice : option float64;
  Tags : option (gmap string (option string));
  NodeLabels : option (gmap string (option string));
  NodeTaints : option (list string)
}.

(** [containerservice.AgentPool]: the properties struct is embedded by
    pointer. *)
Record AgentPool : Type := mkAgentPool {
  ID : option string;
  Name : option string;
  Properties : option ManagedClusterAgentPoolProfileProperties
}.

(** [containerservice.ManagedClusterAgentPoolProfile]: a pool as listed in the
    parent cluster. *)
Record ManagedClusterAgentPoolProfile : Type := mkPoolProfile {
  PoolName : option string;
  PoolType : string
}.

Record ManagedClusterProperties : Type := mkClusterProperties {
  AgentPoolProfiles : option (list ManagedClusterAgentPoolProfile)
}.

Record ManagedCluster : Type := mkCluster {
  ClusterID : option string;
  ClusterProperties : option ManagedClusterProperties
}.

(** Field assignments [profile.F = v] / [props.F = v]. *)

Definition set_Count (v : option Z) (p : ManagedClusterAgentPoolProfileProperties) :
  ManagedClusterAgentPoolProfileProperties :=
  {| Count := v; VMSize := VMSize p; OsDiskSizeGB := OsDiskSizeGB p;
     VnetSubnetID := VnetSubnetID p; MaxPods := MaxPods p; OsType := OsType p;
     MaxCount := MaxCount p; MinCount := MinCount p;
     EnableAutoScaling := EnableAutoScaling p; Type_ := Type_ p;
     AvailabilityZones := AvailabilityZones p;
     EnableNodePublicIP := EnableNodePublicIP p;
     ScaleSetPriority := ScaleSetPriority p;
     ScaleSetEvictionPolicy := ScaleSetEvictionPolicy p;
     SpotMaxPrice := SpotMaxPrice p; Tags := Tags p; NodeLabels := NodeLabels p;
     NodeTaints := NodeTaints p |}.

Definition set_OsDiskSizeGB (v : option Z) (p : ManagedClusterAgentPoolProfileProperties) :
  ManagedClusterAgentPoolProfileProperties :=
  {| Count := Count p; VMSize := VMSize p; OsDiskSizeGB := v;
     VnetSubnetID := VnetSubnetID p; MaxPods := MaxPods p; OsType := OsType p;
     MaxCount := MaxCount p; MinCount := MinCount p;
     EnableAutoScaling := EnableAutoScaling p; Type_ := Type_ p;
     AvailabilityZones := AvailabilityZones p;
     EnableNodePublicIP := EnableNodePublicIP p;
     ScaleSetPriority := ScaleSetPriority p;
     ScaleSetEvictionPolicy := ScaleSetEvictionPolicy p;
     SpotMaxPrice := SpotMaxPrice p; Tags := Tags p; NodeLabels := NodeLabels p;
     NodeTaints := NodeTaints p |}.

Definition set_VnetSubnetID (v : option string) (p : ManagedClusterAgentPoolProfileProperties) :
  ManagedClusterAgentPoolProfileProperties :=
  {| Count := Count p; VMSize := VMSize p; OsDiskSizeGB := OsDiskSizeGB p;
     VnetSubnetID := v; MaxPods := MaxPods p; OsType := OsType p;
     MaxCount := MaxCount p; MinCount := MinCount p;
     EnableAutoScaling := EnableAutoScaling p; Type_ := Type_ p;
     AvailabilityZones := AvailabilityZones p;
     EnableNodePublicIP := EnableNodePublicIP p;
     ScaleSetPriority := ScaleSetPriority p;
     ScaleSetEvictionPolicy := ScaleSetEvictionPolicy p;
     SpotMaxPrice := SpotMaxPrice p; Tags := Tags p; NodeLabels := NodeLabels p;
     NodeTaints := NodeTaints p |}.

Definition set_MaxPods (v : option Z) (p : ManagedClusterAgentPoolProfileProperties) :
  ManagedClusterAgentPoolProfileProperties :=
  {| Count := Count p; VMSize := VMSize p; OsDiskSizeGB := OsDiskSizeGB p;
     VnetSubnetID := VnetSubnetID p; MaxPods := v; OsType := OsType p;
     MaxCount := MaxCount p; MinCount := MinCount p;
     EnableAutoScaling := EnableAutoScaling p; Type_ := Type_ p;
     AvailabilityZones := AvailabilityZones p;
     EnableNodePublicIP := EnableNodePublicIP p;
     ScaleSetPriority := ScaleSetPriority p;
     ScaleSetEvictionPolicy := ScaleSetEvictionPolicy p;
     SpotMaxPrice := SpotMaxPrice p; Tags := Tags p; NodeLabels := NodeLabels p;
     NodeTaints := NodeTaints p |}.

Definition set_MaxCount (v : option Z) (p : ManagedClusterAgentPoolProfileProperties) :
  ManagedClusterAgentPoolProfileProperties :=
  {| Count := Count p; VMSize := VMSize p; OsDiskSizeGB := OsDiskSizeGB p;
     VnetSubnetID := VnetSubnetID p; MaxPods := MaxPods p; OsType := OsType p;
     MaxCount := v; MinCount := MinCount p; EnableAutoScaling := EnableAutoScaling p;
     Type_ := Type_ p; AvailabilityZones := AvailabilityZones p;
     EnableNodePublicIP := EnableNodePublicIP p;
     ScaleSetPriority := ScaleSetPriority p;
     ScaleSetEvictionPolicy := ScaleSetEvictionPolicy p;
     SpotMaxPrice := SpotMaxPrice p; Tags := Tags p; NodeLabels := NodeLabels p;
     NodeTaints := NodeTaints p |}.

Definition set_MinCount (v : option Z) (p : ManagedClusterAgentPoolProfileProperties) :
  ManagedClusterAgentPoolProfileProperties :=
  {| Count := Count p; VMSize := VMSize p; OsDiskSizeGB := OsDiskSizeGB p;
     VnetSubnetID := VnetSubnetID p; MaxPods := MaxPods p; OsType := OsType p;
     MaxCount := MaxCount p; MinCount := v; EnableAutoScaling := EnableAutoScaling p;
     Type_ := Type_ p; AvailabilityZones := AvailabilityZones p;
     EnableNodePublicIP := EnableNodePublicIP p;
     ScaleSetPriority := ScaleSetPriority p;
     ScaleSetEvictionPolicy := ScaleSetEvictionPolicy p;
     SpotMaxPrice := SpotMaxPrice p; Tags := Tags p; NodeLabels := NodeLabels p;
     NodeTaints := NodeTaints p |}.

Definition set_EnableAutoScaling (v : option bool) (p : ManagedClusterAgentPoolProfileProperties) :
  ManagedClusterAgentPoolProfileProperties :=
  {| Count := Count p; VMSize := VMSize p; OsDiskSizeGB := OsDiskSizeGB p;
     VnetSubnetID := VnetSubnetID p; MaxPods := MaxPods p; OsType := OsType p;
     MaxCount := MaxCount p; MinCount := MinCount p; EnableAutoScaling := v;
     Type_ := Type_ p; AvailabilityZones := AvailabilityZones p;
     EnableNodePublicIP := EnableNodePublicIP p;
     ScaleSetPriority := ScaleSetPriority p;
     ScaleSetEvictionPolicy := ScaleSetEvictionPolicy p;
     SpotMaxPrice := SpotMaxPrice p; Tags := Tags p; NodeLabels := NodeLabels p;
     NodeTaints := NodeTaints p |}.

Definition set_AvailabilityZones (v : option (list string)) (p : ManagedClusterAgentPoolProfileProperties) :
  ManagedClusterAgentPoolProfileProperties :=
  {| Count := Count p; VMSize := VMSize p; OsDiskSizeGB := OsDiskSizeGB p;
     VnetSubnetID := VnetSubnetID p; MaxPods := MaxPods p; OsType := OsType p;
     MaxCount := MaxCount p; MinCount := MinCount p;
     EnableAutoScaling := EnableAutoScaling p; Type_ := Type_ p;
     AvailabilityZones := v; EnableNodePublicIP := EnableNodePublicIP p;
     ScaleSetPriority := ScaleSetPriority p;
     ScaleSetEvictionPolicy := ScaleSetEvictionPolicy p;
     SpotMaxPrice := SpotMaxPrice p; Tags := Tags p; NodeLabels := NodeLabels p;
     NodeTaints := NodeTaints p |}.

Definition set_EnableNodePublicIP (v : option bool) (p : ManagedClusterAgentPoolProfileProperties) :
  ManagedClusterAgentPoolProfileProperties :=
  {| Count := Count p; VMSize := VMSize p; OsDiskSizeGB := OsDiskSizeGB p;
     VnetSubnetID := VnetSubnetID p; MaxPods := MaxPods p; OsType := OsType p;
     MaxCount := MaxCount p; MinCount := MinCount p;
     EnableAutoScaling := EnableAutoScaling p; Type_ := Type_ p;
     AvailabilityZones := AvailabilityZones p; EnableNodePublicIP := v;
     ScaleSetPriority := ScaleSetPriority p;
     ScaleSetEvictionPolicy := ScaleSetEvictionPolicy p;
     SpotMaxPrice := SpotMaxPrice p; Tags := Tags p; NodeLabels := NodeLabels p;
     NodeTaints := NodeTaints p |}.

Definition set_ScaleSetEvictionPolicy (v : string) (p : ManagedClusterAgentPoolProfileProperties) :
  ManagedClusterAgentPoolProfileProperties :=
  {| Count := Count p; VMSize := VMSize p; OsDiskSizeGB := OsDiskSizeGB p;
     VnetSubnetID := VnetSubnetID p; MaxPods := MaxPods p; OsType := OsType p;
     MaxCount := MaxCount p; MinCount := MinCount p;
     EnableAutoScaling := EnableAutoScaling p; Type_ := Type_ p;
     AvailabilityZones := AvailabilityZones p;
     EnableNodePublicIP := EnableNodePublicIP p;
     ScaleSetPriority := ScaleSetPriority p; ScaleSetEvictionPolicy := v;
     SpotMaxPrice := SpotMaxPrice p; Tags := Tags p; NodeLabels := NodeLabels p;
     NodeTaints := NodeTaints p |}.

Definition set_SpotMaxPrice (v : option float64) (p : ManagedClusterAgentPoolProfileProperties) :
  ManagedClusterAgentPoolProfileProperties :=
  {| Count := Count p; VMSize := VMSize p; OsDiskSizeGB := OsDiskSizeGB p;
     VnetSubnetID := VnetSubnetID p; MaxPods := MaxPods p; OsType := OsType p;
     MaxCount := MaxCount p; MinCount := MinCount p;
     EnableAutoScaling := EnableAutoScaling p; Type_ := Type_ p;
     AvailabilityZones := AvailabilityZones p;
     EnableNodePublicIP := EnableNodePublicIP p;
     ScaleSetPriority := ScaleSetPriority p;
     ScaleSetEvictionPolicy := ScaleSetEvictionPolicy p; SpotMaxPrice := v;
     Tags := Tags p; NodeLabels := NodeLabels p; NodeTaints := NodeTaints p |}.

Definition set_Tags (v : option (gmap string (option string))) (p : ManagedClusterAgentPoolProfileProperties) :
  ManagedClusterAgentPoolProfileProperties :=
  {| Count := Count p; VMSize := VMSize p; OsDiskSizeGB := OsDiskSizeGB p;
     VnetSubnetID := VnetSubnetID p; MaxPods := MaxPods p; OsType := OsType p;
     MaxCount := MaxCount p; MinCount := MinCount p;
     EnableAutoScaling := EnableAutoScaling p; Type_ := Type_ p;
     AvailabilityZones := AvailabilityZones p;
     EnableNodePublicIP := EnableNodePublicIP p;
     ScaleSetPriority := ScaleSetPriority p;
     ScaleSetEvictionPolicy := ScaleSetEvictionPolicy p;
     SpotMaxPrice := SpotMaxPrice p; Tags := v; NodeLabels := NodeLabels p;
     NodeTaints := NodeTaints p |}.

Definition set_NodeLabels (v : option (gmap string (option string))) (p : ManagedClusterAgentPoolProfileProperties) :
  ManagedClusterAgentPoolProfileProperties :=
  {| Count := Count p; VMSize := VMSize p; OsDiskSizeGB := OsDiskSizeGB p;
     VnetSubnetID := VnetSubnetID p; MaxPods := MaxPods p; OsType := OsType p;
     MaxCount := MaxCount p; MinCount := MinCount p;
     EnableAutoScaling := EnableAutoScaling p; Type_ := Type_ p;
     AvailabilityZones := AvailabilityZones p;
     EnableNodePublicIP := EnableNodePublicIP p;
     ScaleSetPriority := ScaleSetPriority p;
     ScaleSetEvictionPolicy := ScaleSetEvictionPolicy p;
     SpotMaxPrice := SpotMaxPrice p; Tags := Tags p; NodeLabels := v;
     NodeTaints := NodeTaints p |}.

Definition set_NodeTaints (v : option (list string)) (p : ManagedClusterAgentPoolProfileProperties) :
  ManagedClusterAgentPoolProfileProperties :=
  {| Count := Count p; VMSize := VMSize p; OsDiskSizeGB := OsDiskSizeGB p;
     VnetSubnetID := VnetSubnetID p; MaxPods := MaxPods p; OsType := OsType p;
     MaxCount := MaxCount p; MinCount := MinCount p;
     EnableAutoScaling := EnableAutoScaling p; Type_ := Type_ p;
     AvailabilityZones := AvailabilityZones p;
     EnableNodePublicIP := EnableNodePublicIP p;
     ScaleSetPriority := ScaleSetPriority p;
     ScaleSetEvictionPolicy := ScaleSetEvictionPolicy p;
     SpotMaxPrice := SpotMaxPrice p; Tags := Tags p; NodeLabels := NodeLabels p;
     NodeTaints := v |}.

(** ** Helpers of other packages *)

(** Modelled from the spec: [utils.ExpandStringSlice] lives in another
    package.  It turns the declared sequence into a pointer to a slice of the same
    strings; the pointer is never nil. *)
Definition ExpandStringSlice (input : list string) : option (list string) :=
  Some input.

(** Modelled from the spec: [utils.FlattenStringSlice] lives in another
    package.  An absent slice is reflected as the empty collection. *)
Definition FlattenStringSlice (input : option (list string)) : list string :=
  match input with
  | Some items => items
  | None => []
  end.

(** Modelled from the spec: [utils.ExpandMapStringPtrString] and [tags.Expand]
    live in other packages.  Both turn the declared mapping into a mapping
    with the same keys whose values point to the same strings. *)
Definition ExpandMapStringPtrString (input : gmap string string) :
  gmap string (option string) := Some <$> input.

Definition tags_Expand (tagsMap : gmap string string) : gmap string (option string) :=
  Some <$> tagsMap.

(** Modelled from the spec: [tags.Flatten] (behind [tags.FlattenAndSet])
    lives in another package, as does the way [d.Set] stores a
    [map[string]*string].  Absent mappings are reflected as empty and entries
    with a nil value are dropped. *)
Definition FlattenMapStringPtrString (input : option (gmap string (option string))) :
  gmap string string :=
  match input with
  | Some m => omap id m
  | None => ∅
  end.

(** ** Request translation on create (lines 271-357) *)

Definition msg_max_count_required : string :=
  "`max_count` must be configured when `enable_auto_scaling` is set to `true`".
Definition msg_min_count_required : string :=
  "`min_count` must be configured when `enable_auto_scaling` is set to `true`".
Definition msg_max_ge_min : string :=
  "`max_count` must be >= `min_count`".
Definition msg_null_when_disabled : string :=
  "`max_count` and `min_count` must be set to `null` when enable_auto_scaling is set to `false`".
Definition msg_nil_when_disabled : string :=
  "`max_count` and `min_count` must be set to `nil` when enable_auto_scaling is set to `false`".

(** The profile literal of line 278 and the conditional assignments of
    lines 291-324. *)
Definition createProfile (d : Config) : ManagedClusterAgentPoolProfileProperties :=
  let count := node_count d in
  let enableAutoScaling := enable_auto_scaling d in
  let osType := os_type d in
  let t := tags d in
  let vmSize := vm_size d in
  let scaleSetPriority := priority d in
  let profile :=
    {| OsType := osType;
       EnableAutoScaling := Some enableAutoScaling;
       EnableNodePublicIP := Some (enable_node_public_ip d);
       Tags := Some (tags_Expand t);
       Type_ := VirtualMachineScaleSets;
       VMSize := vmSize;
       ScaleSetPriority := scaleSetPriority;
       Count := Some (int32 count);
       (* zero values of the fields the literal leaves out *)
       OsDiskSizeGB := None; VnetSubnetID := None; MaxPods := None;
       MaxCount := None; MinCount := None; AvailabilityZones := None;
       ScaleSetEvictionPolicy := ""; SpotMaxPrice := None;
       NodeLabels := None; NodeTaints := None |} in
  let availabilityZones := ExpandStringSlice (availability_zones d) in
  let profile :=
    if (0 <? Z.of_nat (length (FlattenStringSlice availabilityZones)))%Z
    then set_AvailabilityZones availabilityZones profile else profile in
  let maxPods := int32 (max_pods d) in
  let profile :=
    if (0 <? maxPods)%Z then set_MaxPods (Some maxPods) profile else profile in
  let nodeLabels := ExpandMapStringPtrString (node_labels d) in
  let profile :=
    if (0 <? Z.of_nat (size nodeLabels))%Z
    then set_NodeLabels (Some nodeLabels) profile else profile in
  let nodeTaints := ExpandStringSlice (node_taints d) in
  let profile :=
    if (0 <? Z.of_nat (length (FlattenStringSlice nodeTaints)))%Z
    then set_NodeTaints nodeTaints profile else profile in
  let osDiskSizeGB := os_disk_size_gb d in
  let profile :=
    if (0 <? osDiskSizeGB)%Z
    then set_OsDiskSizeGB (Some (int32 osDiskSizeGB)) profile else profile in
  let vnetSubnetID := vnet_subnet_id d in
  let profile :=
    if negb (String.eqb vnetSubnetID "")
    then set_VnetSubnetID (Some vnetSubnetID) profile else profile in
  let scaleSetEvictionPolicy := eviction_policy d in
  let profile :=
    if negb (String.eqb scaleSetEvictionPolicy "")
    then set_ScaleSetEvictionPolicy scaleSetEvictionPolicy profile else profile in
  let spotPrice := max_bid_price d in
  let profile :=
    if float_ne_zero spotPrice
    then set_SpotMaxPrice (Some spotPrice) profile else profile in
  profile.

(** Lines 326-352: the auto-scaling block, which completes the profile or
    returns the first error it meets. *)
Definition createAutoScale (d : Config) (profile : ManagedClusterAgentPoolProfileProperties) :
  error + ManagedClusterAgentPoolProfileProperties :=
  let count := node_count d in
  let enableAutoScaling := enable_auto_scaling d in
  let maxCount := max_count d in
  let minCount := min_count d in
  if enableAutoScaling then
    let profile :=
      if (count =? 0)%Z then set_Count (Some (int32 minCount)) profile else profile in
    if (0 <? maxCount)%Z then
      let profile := set_MaxCount (Some (int32 maxCount)) profile in
      if (0 <? minCount)%Z then
        let profile := set_MinCount (Some (int32 minCount)) profile in
        if (maxCount <? minCount)%Z then inl (Errorf msg_max_ge_min)
        else inr profile
      else inl (Errorf msg_min_count_required)
    else inl (Errorf msg_max_count_required)
  else if (0 <? minCount)%Z || (0 <? maxCount)%Z then
    inl (Errorf msg_null_when_disabled)
  else inr profile.

(** The payload handed to [CreateOrUpdate] on create (line 354), or the
    validation error returned instead. *)
Definition buildCreatePayload (d : Config) : error + AgentPool :=
  match createAutoScale d (createProfile d) with
  | inl e => inl e
  | inr profile =>
      inr {| ID := None; Name := Some (name d); Properties := Some profile |}
  end.

(** ** State reflection on read (lines 530-587) *)

(** What [d.Get] returns after [d.Set(key, p)] with a pointer [p]: the value
    pointed to, or the zero value of the type for a nil pointer. *)
Definition deref {A : Type} (zero : A) (p : option A) : A :=
  match p with
  | Some v => v
  | None => zero
  end.

Module NodePoolId.
Record t : Type := mk { ResourceGroup : string; ClusterName : string; Name : string }.
End NodePoolId.

Module ClusterId.
Record t : Type := mk { ResourceGroup : string; Name : string }.
End ClusterId.

(** The values the resource data holds once the [d.Set] calls of the read
    path have run, one field per call.  [resp.Tags] on line 587 is a field of
    the embedded properties pointer, so it cannot be evaluated when that
    pointer is nil: the result is [None] for that run-time panic.  ([d.Set]
    itself only fails on a value of the wrong type, which these are not.) *)
Definition flatten (id : NodePoolId.t) (cluster : ManagedCluster) (resp : AgentPool) :
  option Config :=
  match Properties resp with
  | Some props =>
      let maxCount := match MaxCount props with Some v => v | None => 0%Z end in
      let maxPods := match MaxPods props with Some v => v | None => 0%Z end in
      let minCount := match MinCount props with Some v => v | None => 0%Z end in
      let count := match Count props with Some v => v | None => 0%Z end in
      let osDiskSizeGB := match OsDiskSizeGB props with Some v => v | None => 0%Z end in
      Some {| name := NodePoolId.Name id;
              kubernetes_cluster_id := deref "" (ClusterID cluster);
              availability_zones := FlattenStringSlice (AvailabilityZones props);
              enable_auto_scaling := deref false (EnableAutoScaling props);
              enable_node_public_ip := deref false (EnableNodePublicIP props);
              max_count := maxCount;
              max_pods := maxPods;
              min_count := minCount;
              node_count := count;
              node_labels := FlattenMapStringPtrString (NodeLabels props);
              node_taints := FlattenStringSlice (NodeTaints props);
              os_disk_size_gb := osDiskSizeGB;
              os_type := OsType props;
              vnet_subnet_id := deref "" (VnetSubnetID props);
              vm_size := VMSize props;
              priority := ScaleSetPriority props;
              eviction_policy := ScaleSetEvictionPolicy props;
              max_bid_price := deref float_zero (SpotMaxPrice props);
              tags := FlattenMapStringPtrString (Tags props) |}
  | None => None
  end.

(** ** Resource data *)

(** [schema.ResourceData] as the operations use it: the identifier, the
    new-resource flag, the values [d.Get] returns, and the previously recorded
    values [d.HasChange] compares them with. *)
Record ResourceData : Type := mkResourceData {
  Id : string;
  IsNewResource : bool;
  prior : Config;
  values : Config
}.

Definition SetId (v : string) (d : ResourceData) : ResourceData :=
  {| Id := v; IsNewResource := IsNewResource d; prior := prior d; values := values d |}.

Definition SetValues (c : Config) (d : ResourceData) : ResourceData :=
  {| Id := Id d; IsNewResource := IsNewResource d; prior := prior d; values := c |}.

(** [d.HasChange(key)]: the recorded and the new value of the key differ. *)
Definition HasChange {A : Type} `{EqDecision A} (key : Config -> A) (d : ResourceData) : bool :=
  bool_decide (key (prior d) <> key (values d)).

(** ** Delta building on update (lines 407-478) *)

(** Lines 417-448, together with the [enableAutoScaling] variable of
    lines 409-413 and 424-427. *)
Definition applyDeltas (d : ResourceData) (props : ManagedClusterAgentPoolProfileProperties) :
  bool * ManagedClusterAgentPoolProfileProperties :=
  let enableAutoScaling :=
    match EnableAutoScaling props with Some v => v | None => false end in
  let props :=
    if HasChange availability_zones d
    then set_AvailabilityZones (ExpandStringSlice (availability_zones (values d))) props
    else props in
  let '(enableAutoScaling, props) :=
    if HasChange enable_auto_scaling d
    then (enable_auto_scaling (values d),
          set_EnableAutoScaling (Some (enable_auto_scaling (values d))) props)
    else (enableAutoScaling, props) in
  let props :=
    if HasChange enable_node_public_ip d
    then set_EnableNodePublicIP (Some (enable_node_public_ip (values d))) props
    else props in
  let props :=
    if HasChange max_count d
    then set_MaxCount (Some (int32 (max_count (values d)))) props else props in
  let props :=
    if HasChange min_count d
    then set_MinCount (Some (int32 (min_count (values d)))) props else props in
  let props :=
    if HasChange node_count d
    then set_Count (Some (int32 (node_count (values d)))) props else props in
  let props :=
    if HasChange tags d
    then set_Tags (Some (tags_Expand (tags (values d)))) props else props in
  (enableAutoScaling, props).

(** Lines 450-478: the check of the merged auto-scale fields. *)
Definition reconcileAutoScale (enableAutoScaling : bool)
  (props : ManagedClusterAgentPoolProfileProperties) :
  error + ManagedClusterAgentPoolProfileProperties :=
  let maxCount := match MaxCount props with Some v => v | None => 0%Z end in
  let minCount := match MinCount props with Some v => v | None => 0%Z end in
  if enableAutoScaling then
    if (maxCount =? 0)%Z then inl (Errorf msg_max_count_required)
    else if (minCount =? 0)%Z then inl (Errorf msg_min_count_required)
    else if (maxCount <? minCount)%Z then inl (Errorf msg_max_ge_min)
    else inr props
  else
    if (0 <? minCount)%Z || (0 <? maxCount)%Z then inl (Errorf msg_nil_when_disabled)
    else inr (set_MinCount None (set_MaxCount None props)).

(** The merged properties handed to [CreateOrUpdate] on update, or the
    validation error returned instead. *)
Definition buildUpdatePayload (d : ResourceData)
  (props : ManagedClusterAgentPoolProfileProperties) :
  error + ManagedClusterAgentPoolProfileProperties :=
  let '(enableAutoScaling, props) := applyDeltas d props in
  reconcileAutoScale enableAutoScaling props.

(** ** Remote calls *)

(** What a [Get] of either client returns: the decoded value, the error, and
    the answer [utils.ResponseWasNotFound] gives for the embedded response. *)
Record Response (A : Type) : Type := mkResponse {
  result : A;
  err : option string;
  ResponseWasNotFound : bool
}.
Arguments mkResponse {A} _ _ _.
Arguments result {A} _.
Arguments err {A} _.
Arguments ResponseWasNotFound {A} _.

(** A program is a tree of remote calls; each node waits for the reply of the
    remote side.  [CreateOrUpdate] and [Delete] reply with the error of the
    call (the future itself is opaque), [WaitForCompletionRef] with the error
    of the wait. *)
Inductive prog (A : Type) : Type :=
| Return (a : A)
| ClustersGet (resourceGroup clusterName : string)
    (k : Response ManagedCluster -> prog A)
| PoolsGet (resourceGroup clusterName poolName : string)
    (k : Response AgentPool -> prog A)
| PoolsCreateOrUpdate (resourceGroup clusterName poolName : string)
    (parameters : AgentPool) (k : option string -> prog A)
| PoolsDelete (resourceGroup clusterName poolName : string)
    (k : option string -> prog A)
| WaitForCompletionRef (k : option string -> prog A).
Arguments Return {A} _.
Arguments ClustersGet {A} _ _ _.
Arguments PoolsGet {A} _ _ _ _.
Arguments PoolsCreateOrUpdate {A} _ _ _ _ _.
Arguments PoolsDelete {A} _ _ _ _.
Arguments WaitForCompletionRef {A} _.

Notation "'await' x ':=' c 'in' k" := (c (fun x => k))
  (at level 10, x name, c at level 100, k at level 200, only parsing).

(** The calls a run has issued, in order. *)
Inductive call : Type :=
| CallClustersGet (resourceGroup clusterName : string)
| CallPoolsGet (resourceGroup clusterName poolName : string)
| CallCreateOrUpdate (resourceGroup clusterName poolName : string) (parameters : AgentPool)
| CallDelete (resourceGroup clusterName poolName : string)
| CallWait.

Definition mutating (c : call) : bool :=
  match c with
  | CallCreateOrUpdate _ _ _ _ | CallDelete _ _ _ => true
  | _ => false
  end.

(** An arbitrary remote side: a state and one reply function per call. *)
Record handler (S : Type) : Type := mkHandler {
  onClustersGet : string -> string -> S -> Response ManagedCluster * S;
  onPoolsGet : string -> string -> string -> S -> Response AgentPool * S;
  onCreateOrUpdate : string -> string -> string -> AgentPool -> S -> option string * S;
  onDelete : string -> string -> string -> S -> option string * S;
  onWait : S -> option string * S
}.
Arguments onClustersGet {S} _ _ _ _.
Arguments onPoolsGet {S} _ _ _ _ _.
Arguments onCreateOrUpdate {S} _ _ _ _ _ _.
Arguments onDelete {S} _ _ _ _ _.
Arguments onWait {S} _ _.

(** Running a program against a remote side: the value it returns and the
    calls it issued. *)
Fixpoint run {S A : Type} (h : handler S) (p : prog A) (s : S) : A * list call :=
  match p with
  | Return a => (a, [])
  | ClustersGet rg cn k =>
      let '(r, s') := onClustersGet h rg cn s in
      let '(a, log) := run h (k r) s' in (a, CallClustersGet rg cn :: log)
  | PoolsGet rg cn n k =>
      let '(r, s') := onPoolsGet h rg cn n s in
      let '(a, log) := run h (k r) s' in (a, CallPoolsGet rg cn n :: log)
  | PoolsCreateOrUpdate rg cn n parameters k =>
      let '(r, s') := onCreateOrUpdate h rg cn n parameters s in
      let '(a, log) := run h (k r) s' in (a, CallCreateOrUpdate rg cn n parameters :: log)
  | PoolsDelete rg cn n k =>
      let '(r, s') := onDelete h rg cn n s in
      let '(a, log) := run h (k r) s' in (a, CallDelete rg cn n :: log)
  | WaitForCompletionRef k =>
      let '(r, s') := onWait h s in
      let '(a, log) := run h (k r) s' in (a, CallWait :: log)
  end.

(** How an operation ends: [return nil], [return err], or a run-time panic. *)
Inductive outcome : Type :=
| Success
| Failure (e : error)
| Panic.

(** ** The four operations *)

(** Lines 242-253: is one pool of the parent a scale set? *)
Fixpoint anyPoolIsVMSS (pools : list ManagedClusterAgentPoolProfile) : bool :=
  match pools with
  | [] => false
  | p :: rest =>
      if String.eqb (PoolType p) VirtualMachineScaleSets then true
      else anyPoolIsVMSS rest
  end.

Definition defaultPoolIsVMSS (cluster : ManagedCluster) : bool :=
  match ClusterProperties cluster with
  | Some props =>
      match AgentPoolProfiles props with
      | Some pools => anyPoolIsVMSS pools
      | None => false
      end
  | None => false
  end.

Section Reconciler.

(** [parse.KubernetesClusterID] and [parse.KubernetesNodePoolID] belong to
    another package and are taken as given. *)
Variable KubernetesClusterID : string -> error + ClusterId.t.
Variable KubernetesNodePoolID : string -> error + NodePoolId.t.

Definition resourceArmKubernetesClusterNodePoolRead (d : ResourceData) :
  prog (outcome * ResourceData) :=
  match KubernetesNodePoolID (Id d) with
  | inl e => Return (Failure e, d)
  | inr id =>
      let resourceGroup := NodePoolId.ResourceGroup id in
      let clusterName := NodePoolId.ClusterName id in
      await cluster := ClustersGet resourceGroup clusterName in
      match err cluster with
      | Some _ =>
          if ResponseWasNotFound cluster then Return (Success, SetId "" d)
          else Return (Failure RetrievingManagedCluster, d)
      | None =>
          await resp := PoolsGet resourceGroup clusterName (NodePoolId.Name id) in
          match err resp with
          | Some _ =>
              if ResponseWasNotFound resp then Return (Success, SetId "" d)
              else Return (Failure RetrievingNodePool, d)
          | None =>
              match flatten id (result cluster) (result resp) with
              | Some c => Return (Success, SetValues c d)
              | None => Return (Panic, d)
              end
          end
      end
  end.

(** Lines 271-379: translate, submit, wait, re-read, reflect. *)
Definition createSubmit (resourceGroup clusterName : string) (d : ResourceData) :
  prog (outcome * ResourceData) :=
  match buildCreatePayload (values d) with
  | inl e => Return (Failure e, d)
  | inr parameters =>
      let name_ := name (values d) in
      await e := PoolsCreateOrUpdate resourceGroup clusterName name_ parameters in
      match e with
      | Some _ => Return (Failure CreatingPool, d)
      | None =>
          await e := WaitForCompletionRef in
          match e with
          | Some _ => Return (Failure WaitingForCompletion, d)
          | None =>
              await read := PoolsGet resourceGroup clusterName name_ in
              match err read with
              | Some _ => Return (Failure RetrievingPool, d)
              | None =>
                  match ID (result read) with
                  | None => Return (Failure CannotReadID, d)
                  | Some id => resourceArmKubernetesClusterNodePoolRead (SetId id d)
                  end
              end
          end
      end
  end.

Definition resourceArmKubernetesClusterNodePoolCreate (d : ResourceData) :
  prog (outcome * ResourceData) :=
  match KubernetesClusterID (kubernetes_cluster_id (values d)) with
  | inl e => Return (Failure e, d)
  | inr kubernetesClusterId =>
      let resourceGroup := ClusterId.ResourceGroup kubernetesClusterId in
      let clusterName := ClusterId.Name kubernetesClusterId in
      let name_ := name (values d) in
      await cluster := ClustersGet resourceGroup clusterName in
      match err cluster with
      | Some _ =>
          if ResponseWasNotFound cluster then Return (Failure ClusterNotFound, d)
          else Return (Failure RetrievingExistingCluster, d)
      | None =>
          if negb (defaultPoolIsVMSS (result cluster)) then
            Return (Failure DefaultPoolNotVMSS, d)
          else if IsNewResource d then
            await existing := PoolsGet resourceGroup clusterName name_ in
            if bool_decide (err existing <> None) && negb (ResponseWasNotFound existing)
            then Return (Failure CheckingPresence, d)
            else
              match ID (result existing) with
              | Some id =>
                  if negb (String.eqb id "") then Return (Failure (ImportAsExistsError id), d)
                  else createSubmit resourceGroup clusterName d
              | None => createSubmit resourceGroup clusterName d
              end
          else createSubmit resourceGroup clusterName d
      end
  end.

Definition resourceArmKubernetesClusterNodePoolUpdate (d : ResourceData) :
  prog (outcome * ResourceData) :=
  match KubernetesNodePoolID (Id d) with
  | inl e => Return (Failure e, d)
  | inr id =>
      let resourceGroup := NodePoolId.ResourceGroup id in
      let clusterName := NodePoolId.ClusterName id in
      let poolName := NodePoolId.Name id in
      await existing := PoolsGet resourceGroup clusterName poolName in
      match err existing with
      | Some _ =>
          if ResponseWasNotFound existing then Return (Failure NodePoolNotFound, d)
          else Return (Failure RetrievingNodePool, d)
      | None =>
          match Properties (result existing) with
          | None => Return (Failure PropertiesNil, d)
          | Some props =>
              match buildUpdatePayload d props with
              | inl e => Return (Failure e, d)
              | inr props =>
                  let existing :=
                    {| ID := ID (result existing); Name := Name (result existing);
                       Properties := Some props |} in
                  await e := PoolsCreateOrUpdate resourceGroup clusterName poolName existing in
                  match e with
                  | Some _ => Return (Failure UpdatingPool, d)
                  | None =>
                      await e := WaitForCompletionRef in
                      match e with
                      | Some _ => Return (Failure WaitingForUpdate, d)
                      | None => resourceArmKubernetesClusterNodePoolRead d
                      end
                  end
              end
          end
      end
  end.

Definition resourceArmKubernetesClusterNodePoolDelete (d : ResourceData) :
  prog (outcome * ResourceData) :=
  match KubernetesNodePoolID (Id d) with
  | inl e => Return (Failure e, d)
  | inr id =>
      let resourceGroup := NodePoolId.ResourceGroup id in
      let clusterName := NodePoolId.ClusterName id in
      await e := PoolsDelete resourceGroup clusterName (NodePoolId.Name id) in
      match e with
      | Some _ => Return (Failure DeletingPool, d)
      | None =>
          await e := WaitForCompletionRef in
          match e with
          | Some _ => Return (Failure WaitingForDeletion, d)
          | None => Return (Success, d)
          end
      end
  end.

End Reconciler.

(** ** Concrete inputs used below *)

(** The float64 value 0.5. *)
Definition half : float64 := S754_finite false 4503599627370496 (-53).

Definition exampleConfig (enable : bool) (count minC maxC : Z)
  (prio evict : string) (price : float64) (t : gmap string string) : Config :=
  {| name := "pool1";
     kubernetes_cluster_id := "cluster1";
     node_count := count;
     tags := t;
     vm_size := "Standard_D2";
     availability_zones := [];
     enable_auto_scaling := enable;
     enable_node_public_ip := false;
     max_count := maxC;
     max_pods := 0;
     min_count := minC;
     node_labels := ∅;
     node_taints := [];
     os_disk_size_gb := 0;
     os_type := Linux;
     vnet_subnet_id := "";
     priority := prio;
     eviction_policy := evict;
     max_bid_price := price |}.

(** Does [s] contain [sub]? *)
Definition mentions (sub s : string) : bool :=
  match String.index 0 sub s with
  | Some _ => true
  | None => false
  end.

Definition exampleData (old new : Config) : ResourceData :=
  {| Id := "pool1-id"; IsNewResource := false; prior := old; values := new |}.

(** The resource data of a pool that is to be created. *)
Definition newData (c : Config) : ResourceData :=
  {| Id := ""; IsNewResource := true; prior := c; values := c |}.

(** A fetched pool with the given auto-scale fields and three nodes. *)
Definition observedProps (enable : option bool) (minC maxC : option Z) :
  ManagedClusterAgentPoolProfileProperties :=
  {| Count := Some 3%Z; VMSize := "Standard_D2"; OsDiskSizeGB := Some 128%Z;
     VnetSubnetID := None; MaxPods := Some 110%Z; OsType := Linux;
     MaxCount := maxC; MinCount := minC; EnableAutoScaling := enable;
     Type_ := VirtualMachineScaleSets; AvailabilityZones := None;
     EnableNodePublicIP := Some false; ScaleSetPriority := Regular;
     ScaleSetEvictionPolicy := ""; SpotMaxPrice := None; Tags := None;
     NodeLabels := None; NodeTaints := None |}.

Definition observedPool (props : option ManagedClusterAgentPoolProfileProperties) :
  AgentPool :=
  {| ID := Some "pool1-id"; Name := Some "pool1"; Properties := props |}.

Definition exampleCluster (poolType : string) : ManagedCluster :=
  {| ClusterID := Some "cluster1";
     ClusterProperties :=
       Some {| AgentPoolProfiles :=
                 Some [ {| PoolName := Some "default"; PoolType := poolType |} ] |} |}.

(** The zero value the client returns along with an error. *)
Definition absentPool : AgentPool :=
  {| ID := None; Name := None; Properties := None |}.

(** A remote side on which the pool appears once it has been looked up:
    the first look-up answers [first], every later one [later]; all other
    calls succeed.  The state counts the look-ups. *)
Definition scriptedHandler (cluster : Response ManagedCluster)
  (first later : Response AgentPool) : handler nat :=
  {| onClustersGet := fun _ _ s => (cluster, s);
     onPoolsGet := fun _ _ _ s => (if Nat.eqb s 0 then first else later, S s);
     onCreateOrUpdate := fun _ _ _ _ s => (None, s);
     onDelete := fun _ _ _ s => (None, s);
     onWait := fun s => (None, s) |}.

(** The values a read yields for [observedProps (Some false) None None]
    under the example identifiers, with the given node count. *)
Definition readBackExample (count : Z) : Config :=
  {| name := "pool1";
     kubernetes_cluster_id := "cluster1";
     node_count := count;
     tags := ∅;
     vm_size := "Standard_D2";
     availability_zones := [];
     enable_auto_scaling := false;
     enable_node_public_ip := false;
     max_count := 0;
     max_pods := 110;
     min_count := 0;
     node_labels := ∅;
     node_taints := [];
     os_disk_size_gb := 128;
     os_type := Linux;
     vnet_subnet_id := "";
     priority := Regular;
     eviction_policy := "";
     max_bid_price := float_zero |}.

(** A remote side that answers every call the same way. *)
Definition constHandler (cluster : Response ManagedCluster) (pool : Response AgentPool)
  (submitted waited : option string) : handler unit :=
  {| onClustersGet := fun _ _ s => (cluster, s);
     onPoolsGet := fun _ _ _ s => (pool, s);
     onCreateOrUpdate := fun _ _ _ _ s => (submitted, s);
     onDelete := fun _ _ _ s => (submitted, s);
     onWait := fun s => (waited, s) |}.

Definition found {A : Type} (v : A) : Response A :=
  {| result := v; err := None; ResponseWasNotFound := false |}.

Definition failed {A : Type} (zero : A) (notFound : bool) : Response A :=
  {| result := zero; err := Some "error"; ResponseWasNotFound := notFound |}.

Definition exampleClusterID (s : string) : error + ClusterId.t :=
  inr (ClusterId.mk "group1" s).

Definition exampleNodePoolID (s : string) : error + NodePoolId.t :=
  if String.eqb s "" then inl (ParseError "empty id")
  else inr (NodePoolId.mk "group1" "cluster1" "pool1").

(** ** Vocabulary of the statements *)

(** A run ends in an error and has issued no mutating call. *)
Definition rejected_before_mutation {S : Type} (h : handler S)
  (p : prog (outcome * ResourceData)) (s : S) : Prop :=
  (exists e, fst (fst (run h p s)) = Failure e) /\
  Forall (fun c => mutating c = false) (snd (run h p s)).

(** The recorded values of the three auto-scale keys are those a read of the
    fetched properties yields. *)
Definition in_sync (d : ResourceData) (props : ManagedClusterAgentPoolProfileProperties) :
  Prop :=
  enable_auto_scaling (prior d) = deref false (EnableAutoScaling props) /\
  max_count (prior d) = deref 0%Z (MaxCount props) /\
  min_count (prior d) = deref 0%Z (MinCount props).

(** Reflection composed with translation: the payload of a create, read back
    as the pool the remote side returns for it, under the identifier [id] and
    the parent [cluster]. *)
Definition roundTrip (id : NodePoolId.t) (cluster : ManagedCluster) (c : Config) :
  option Config :=
  match buildCreatePayload c with
  | inr parameters => flatten id cluster parameters
  | inl _ => None
  end.

(** The auto-scale triple the update path checks: the flag and the two bounds
    after the declared changes have been laid over the fetched properties. *)
Definition mergedEnabled (d : ResourceData) (props : ManagedClusterAgentPoolProfileProperties) :
  bool := fst (applyDeltas d props).
Definition mergedMax (d : ResourceData) (props : ManagedClusterAgentPoolProfileProperties) :
  Z := deref 0%Z (MaxCount (snd (applyDeltas d props))).
Definition mergedMin (d : ResourceData) (props : ManagedClusterAgentPoolProfileProperties) :
  Z := deref 0%Z (MinCount (snd (applyDeltas d props))).

(** * Properties *)

(** ** Basic facts *)

Lemma int32_small (x : Z) : (- 2 ^ 31 <= x < 2 ^ 31)%Z -> int32 x = x.
Proof.
  intros Hx. unfold int32.
  rewrite Z.mod_small by lia. lia.
Qed.

Lemma float_ne_zero_false (x : float64) :
  float_ne_zero x = false <-> exists s, x = S754_zero s.
Proof.
  unfold float_ne_zero, float_zero, SFeqb, SFcompare.
  destruct x as [s | s | | s m e]; simpl.
  - split; [eauto | done].
  - destruct s; split; try done; intros [? ?]; done.
  - split; [done | intros [? ?]; done].
  - destruct s; split; try done; intros [? ?]; done.
Qed.

(** ** Pre-flight check *)

(** The complete table of [customizeDiff]: nothing is reported unless the
    priority is [Regular]; under [Regular] each of the two keys that is set
    contributes its message, the bid price first. *)
Lemma customizeDiff_table (d : Config) :
  customizeDiff d =
    if String.eqb (priority d) Regular then
      match float_ne_zero (max_bid_price d), negb (String.eqb (eviction_policy d) "") with
      | true, true => Some (ErrorsNew (msg_max_bid_price ++ ", " ++ msg_eviction_policy))
      | true, false => Some (ErrorsNew msg_max_bid_price)
      | false, true => Some (ErrorsNew msg_eviction_policy)
      | false, false => None
      end
    else None.
Proof.
  unfold customizeDiff, GetOk_string, GetOk_float.
  destruct (String.eqb (priority d) Regular); [| reflexivity].
  destruct (float_ne_zero (max_bid_price d)),
    (negb (String.eqb (eviction_policy d) "")); reflexivity.
Qed.

(** C10. [customizeDiff] returns an error exactly when the priority is
    [Regular] and [eviction_policy] or [max_bid_price] holds a value other
    than the zero value; with priority [Spot] it always succeeds, whether or
    not an eviction policy or a bid price is given. *)
Theorem customizeDiff_error_iff (d : Config) :
  (customizeDiff d <> None <->
     priority d = Regular /\
     (eviction_policy d <> "" \/ float_ne_zero (max_bid_price d) = true)) /\
  (priority d = Spot -> customizeDiff d = None).
Proof.
  rewrite customizeDiff_table. split.
  - destruct (String.eqb_spec (priority d) Regular) as [Hp | Hp].
    + destruct (float_ne_zero (max_bid_price d)) eqn:Hf,
        (String.eqb_spec (eviction_policy d) "") as [He | He]; simpl;
        split; intros H; try done; try (split; [done | auto]).
      destruct H as [_ [H | H]]; done.
    + split; intros H; [done | destruct H; done].
  - intros Hs. rewrite Hs. reflexivity.
Qed.

Lemma customizeDiff_error_iff_witness :
  customizeDiff (exampleConfig false 3 0 0 Spot Delete half ∅) = None.
Proof.
  apply (proj2 (customizeDiff_error_iff (exampleConfig false 3 0 0 Spot Delete half ∅))).
  reflexivity.
Defined.

(** ** Validation on create *)

(** The auto-scaling block of the create path, case by case. *)
Lemma createAutoScale_cases (d : Config) (p : ManagedClusterAgentPoolProfileProperties) :
  createAutoScale d p =
    if enable_auto_scaling d then
      if (max_count d <=? 0)%Z then inl (Errorf msg_max_count_required)
      else if (min_count d <=? 0)%Z then inl (Errorf msg_min_count_required)
      else if (max_count d <? min_count d)%Z then inl (Errorf msg_max_ge_min)
      else inr (set_MinCount (Some (int32 (min_count d)))
                  (set_MaxCount (Some (int32 (max_count d)))
                     (if (node_count d =? 0)%Z
                      then set_Count (Some (int32 (min_count d))) p else p)))
    else if (0 <? min_count d)%Z || (0 <? max_count d)%Z
         then inl (Errorf msg_null_when_disabled)
         else inr p.
Proof.
  unfold createAutoScale.
  destruct (enable_auto_scaling d); [| reflexivity].
  destruct (Z.ltb_spec 0 (max_count d)), (Z.leb_spec (max_count d) 0); try lia;
    [| reflexivity].
  destruct (Z.ltb_spec 0 (min_count d)), (Z.leb_spec (min_count d) 0); try lia;
    reflexivity.
Qed.

Lemma buildCreatePayload_error (d : Config) (e : error) :
  createAutoScale d (createProfile d) = inl e -> buildCreatePayload d = inl e.
Proof. unfold buildCreatePayload. intros ->. reflexivity. Qed.

(** C1, as the code has it.  Only the pre-flight check accumulates: with
    priority [Regular], a bid price and an eviction policy both set, its one
    error carries both messages, the bid price first.  The auto-scaling checks
    of the create path return the first message that applies, in the order
    missing [max_count], missing [min_count], [min_count] above [max_count];
    with auto-scaling off there is the single message about both bounds. *)
Theorem validation_messages (d : Config) :
  (priority d = Regular -> float_ne_zero (max_bid_price d) = true ->
   eviction_policy d <> "" ->
   customizeDiff d =
     Some (ErrorsNew (msg_max_bid_price ++ ", " ++ msg_eviction_policy))) /\
  (enable_auto_scaling d = true -> (max_count d <= 0)%Z ->
   buildCreatePayload d = inl (Errorf msg_max_count_required)) /\
  (enable_auto_scaling d = true -> (0 < max_count d)%Z -> (min_count d <= 0)%Z ->
   buildCreatePayload d = inl (Errorf msg_min_count_required)) /\
  (enable_auto_scaling d = true -> (0 < max_count d)%Z ->
   (max_count d < min_count d)%Z ->
   buildCreatePayload d = inl (Errorf msg_max_ge_min)) /\
  (enable_auto_scaling d = false -> (0 < min_count d)%Z \/ (0 < max_count d)%Z ->
   buildCreatePayload d = inl (Errorf msg_null_when_disabled)).
Proof.
  repeat split.
  - intros Hp Hf He. rewrite customizeDiff_table, Hp, Hf. simpl.
    destruct (String.eqb_spec (eviction_policy d) ""); [done | reflexivity].
  - intros He Hmax. apply buildCreatePayload_error.
    rewrite createAutoScale_cases, He.
    destruct (Z.leb_spec (max_count d) 0); [reflexivity | lia].
  - intros He Hmax Hmin. apply buildCreatePayload_error.
    rewrite createAutoScale_cases, He.
    destruct (Z.leb_spec (max_count d) 0); [lia |].
    destruct (Z.leb_spec (min_count d) 0); [reflexivity | lia].
  - intros He Hmax Hlt. apply buildCreatePayload_error.
    rewrite createAutoScale_cases, He.
    destruct (Z.leb_spec (max_count d) 0); [lia |].
    destruct (Z.leb_spec (min_count d) 0); [lia |].
    destruct (Z.ltb_spec (max_count d) (min_count d)); [reflexivity | lia].
  - intros He Hor. apply buildCreatePayload_error.
    rewrite createAutoScale_cases, He.
    destruct (Z.ltb_spec 0 (min_count d)), (Z.ltb_spec 0 (max_count d));
      try reflexivity; lia.
Qed.

Lemma validation_messages_witness :
  customizeDiff (exampleConfig false 3 0 0 Regular Delete half ∅) =
    Some (ErrorsNew (msg_max_bid_price ++ ", " ++ msg_eviction_policy)) /\
  buildCreatePayload (exampleConfig true 0 0 0 Regular "" float_zero ∅) =
    inl (Errorf msg_max_count_required).
Proof.
  split.
  - apply (proj1 (validation_messages (exampleConfig false 3 0 0 Regular Delete half ∅)));
      [reflexivity | reflexivity | discriminate].
  - apply (proj1 (proj2 (validation_messages
                           (exampleConfig true 0 0 0 Regular "" float_zero ∅))));
      [reflexivity | simpl; lia].
Defined.

(** C1 as written fails: with auto-scaling on and both bounds missing, the
    create path reports the missing [max_count] and says nothing about
    [min_count]. *)
Lemma create_validation_reports_first_only :
  let d := exampleConfig true 0 0 0 Regular "" float_zero ∅ in
  enable_auto_scaling d = true /\ (max_count d <= 0)%Z /\ (min_count d <= 0)%Z /\
  customizeDiff d = None /\
  exists e, buildCreatePayload d = inl e /\
            mentions "max_count" (error_message e) = true /\
            mentions "min_count" (error_message e) = false.
Proof.
  simpl. repeat split; try lia.
  exists (Errorf msg_max_count_required). repeat split.
Qed.

(** ** The create payload *)

(** Reduce field assignments and field reads of a profile, and nothing else. *)
Ltac unfold_setters :=
  cbv beta iota delta
    [set_Count set_OsDiskSizeGB set_VnetSubnetID set_MaxPods set_MaxCount
     set_MinCount set_EnableAutoScaling set_AvailabilityZones
     set_EnableNodePublicIP set_ScaleSetEvictionPolicy set_SpotMaxPrice set_Tags
     set_NodeLabels set_NodeTaints
     Count VMSize OsDiskSizeGB VnetSubnetID MaxPods OsType MaxCount MinCount
     EnableAutoScaling Type_ AvailabilityZones EnableNodePublicIP ScaleSetPriority
     ScaleSetEvictionPolicy SpotMaxPrice Tags NodeLabels NodeTaints] in *.

(** The profile of the create path, field by field. *)
Lemma createProfile_eq (d : Config) :
  createProfile d =
    {| Count := Some (int32 (node_count d));
       VMSize := vm_size d;
       OsDiskSizeGB :=
         if (0 <? os_disk_size_gb d)%Z then Some (int32 (os_disk_size_gb d)) else None;
       VnetSubnetID :=
         if String.eqb (vnet_subnet_id d) "" then None else Some (vnet_subnet_id d);
       MaxPods :=
         if (0 <? int32 (max_pods d))%Z then Some (int32 (max_pods d)) else None;
       OsType := os_type d;
       MaxCount := None;
       MinCount := None;
       EnableAutoScaling := Some (enable_auto_scaling d);
       Type_ := VirtualMachineScaleSets;
       AvailabilityZones :=
         match availability_zones d with [] => None | _ => Some (availability_zones d) end;
       EnableNodePublicIP := Some (enable_node_public_ip d);
       ScaleSetPriority := priority d;
       ScaleSetEvictionPolicy := eviction_policy d;
       SpotMaxPrice :=
         if float_ne_zero (max_bid_price d) then Some (max_bid_price d) else None;
       Tags := Some (tags_Expand (tags d));
       NodeLabels :=
         if (0 <? Z.of_nat (size (node_labels d)))%Z
         then Some (ExpandMapStringPtrString (node_labels d)) else None;
       NodeTaints :=
         match node_taints d with [] => None | _ => Some (node_taints d) end |}.
Proof.
  unfold createProfile, ExpandStringSlice, FlattenStringSlice, ExpandMapStringPtrString.
  rewrite map_size_fmap.
  destruct (availability_zones d), (0 <? int32 (max_pods d))%Z,
    (0 <? Z.of_nat (size (node_labels d)))%Z, (node_taints d),
    (0 <? os_disk_size_gb d)%Z, (String.eqb_spec (vnet_subnet_id d) ""),
    (String.eqb_spec (eviction_policy d) ""), (float_ne_zero (max_bid_price d));
    simpl; unfold_setters; try reflexivity; congruence.
Qed.

(** A payload is built exactly when the auto-scaling block accepts, and it
    then carries the name and the completed profile. *)
Lemma buildCreatePayload_inv (d : Config) (a : AgentPool) :
  buildCreatePayload d = inr a ->
  exists p, createAutoScale d (createProfile d) = inr p /\
            a = {| ID := None; Name := Some (name d); Properties := Some p |}.
Proof.
  unfold buildCreatePayload.
  destruct (createAutoScale d (createProfile d)) as [e | p]; [discriminate |].
  intros [= <-]. eauto.
Qed.

(** The auto-scaling block touches the count and the two bounds only. *)
Lemma createAutoScale_frame (d : Config) (p0 p : ManagedClusterAgentPoolProfileProperties) :
  createAutoScale d p0 = inr p ->
  VMSize p = VMSize p0 /\ OsDiskSizeGB p = OsDiskSizeGB p0 /\
  VnetSubnetID p = VnetSubnetID p0 /\ MaxPods p = MaxPods p0 /\
  OsType p = OsType p0 /\ EnableAutoScaling p = EnableAutoScaling p0 /\
  Type_ p = Type_ p0 /\ AvailabilityZones p = AvailabilityZones p0 /\
  EnableNodePublicIP p = EnableNodePublicIP p0 /\
  ScaleSetPriority p = ScaleSetPriority p0 /\
  ScaleSetEvictionPolicy p = ScaleSetEvictionPolicy p0 /\
  SpotMaxPrice p = SpotMaxPrice p0 /\ Tags p = Tags p0 /\
  NodeLabels p = NodeLabels p0 /\ NodeTaints p = NodeTaints p0.
Proof.
  rewrite createAutoScale_cases.
  destruct (enable_auto_scaling d).
  - destruct (max_count d <=? 0)%Z; [discriminate |].
    destruct (min_count d <=? 0)%Z; [discriminate |].
    destruct (max_count d <? min_count d)%Z; [discriminate |].
    intros [= <-]. destruct (node_count d =? 0)%Z; repeat split.
  - destruct ((0 <? min_count d)%Z || (0 <? max_count d)%Z); [discriminate |].
    intros [= <-]. repeat split.
Qed.

(** C7. In the payload of a create, an optional field whose declared value
    is the unset sentinel is left out: zero [max_pods], [os_disk_size_gb] and
    [max_bid_price] (a bid price that compares equal to 0 is never sent), the
    empty [vnet_subnet_id] and [eviction_policy] (the latter stays the empty
    zero value of its string type), and the empty [availability_zones],
    [node_labels] and [node_taints]. *)
Theorem create_omits_unset (d : Config) (a : AgentPool) :
  buildCreatePayload d = inr a ->
  exists p, Properties a = Some p /\
    (max_pods d = 0%Z -> MaxPods p = None) /\
    (os_disk_size_gb d = 0%Z -> OsDiskSizeGB p = None) /\
    (float_ne_zero (max_bid_price d) = false -> SpotMaxPrice p = None) /\
    (vnet_subnet_id d = "" -> VnetSubnetID p = None) /\
    (eviction_policy d = "" -> ScaleSetEvictionPolicy p = "") /\
    (availability_zones d = [] -> AvailabilityZones p = None) /\
    (node_labels d = ∅ -> NodeLabels p = None) /\
    (node_taints d = [] -> NodeTaints p = None).
Proof.
  intros Ha. apply buildCreatePayload_inv in Ha as (p & Hp & ->).
  exists p. split; [reflexivity |].
  apply createAutoScale_frame in Hp.
  destruct Hp as (_ & Hdisk & Hvnet & Hpods & _ & _ & _ & Haz & _ & _ & Hev & Hspot
                  & _ & Hlabels & Htaints).
  rewrite Hdisk, Hvnet, Hpods, Haz, Hev, Hspot, Hlabels, Htaints, createProfile_eq.
  simpl. repeat split.
  - intros ->. reflexivity.
  - intros ->. reflexivity.
  - intros ->. reflexivity.
  - intros ->. reflexivity.
  - intros ->. reflexivity.
  - intros ->. reflexivity.
  - intros ->. reflexivity.
  - intros ->. reflexivity.
Qed.

Lemma create_omits_unset_witness :
  exists p,
    Properties {| ID := None; Name := Some "pool1";
                  Properties := Some (createProfile
                    (exampleConfig false 3 0 0 Regular "" float_zero ∅)) |} = Some p /\
    MaxPods p = None /\ OsDiskSizeGB p = None /\ SpotMaxPrice p = None /\
    VnetSubnetID p = None /\ ScaleSetEvictionPolicy p = "" /\
    AvailabilityZones p = None /\ NodeLabels p = None /\ NodeTaints p = None.
Proof.
  destruct (create_omits_unset (exampleConfig false 3 0 0 Regular "" float_zero ∅) _
              eq_refl) as (p & Hp & H1 & H2 & H3 & H4 & H5 & H6 & H7 & H8).
  exists p. split; [exact Hp |].
  repeat split; [apply H1 | apply H2 | apply H3 | apply H4 | apply H5 | apply H6
                 | apply H7 | apply H8]; reflexivity.
Defined.



(** ** The update payload *)

(** What the declared changes leave in the three auto-scale fields. *)
Lemma applyDeltas_autoscale (d : ResourceData)
  (props : ManagedClusterAgentPoolProfileProperties) :
  mergedEnabled d props =
    (if HasChange enable_auto_scaling d then enable_auto_scaling (values d)
     else deref false (EnableAutoScaling props)) /\
  EnableAutoScaling (snd (applyDeltas d props)) =
    (if HasChange enable_auto_scaling d then Some (enable_auto_scaling (values d))
     else EnableAutoScaling props) /\
  MaxCount (snd (applyDeltas d props)) =
    (if HasChange max_count d then Some (int32 (max_count (values d)))
     else MaxCount props) /\
  MinCount (snd (applyDeltas d props)) =
    (if HasChange min_count d then Some (int32 (min_count (values d)))
     else MinCount props).
Proof.
  unfold mergedEnabled, applyDeltas.
  destruct (HasChange availability_zones d), (HasChange enable_auto_scaling d),
    (HasChange enable_node_public_ip d), (HasChange max_count d),
    (HasChange min_count d), (HasChange node_count d), (HasChange tags d);
    simpl; unfold_setters; repeat split.
Qed.

(** The flag the check runs on is the one the payload carries. *)
Lemma mergedEnabled_payload (d : ResourceData)
  (props : ManagedClusterAgentPoolProfileProperties) :
  mergedEnabled d props = deref false (EnableAutoScaling (snd (applyDeltas d props))).
Proof.
  destruct (applyDeltas_autoscale d props) as (-> & -> & _).
  destruct (HasChange enable_auto_scaling d); reflexivity.
Qed.

Lemma buildUpdatePayload_eq (d : ResourceData)
  (props : ManagedClusterAgentPoolProfileProperties) :
  buildUpdatePayload d props =
    reconcileAutoScale (mergedEnabled d props) (snd (applyDeltas d props)).
Proof.
  unfold buildUpdatePayload, mergedEnabled.
  destruct (applyDeltas d props); reflexivity.
Qed.

(** The check of the merged fields, case by case. *)
Lemma buildUpdatePayload_cases (d : ResourceData)
  (props : ManagedClusterAgentPoolProfileProperties) :
  buildUpdatePayload d props =
    if mergedEnabled d props then
      if (mergedMax d props =? 0)%Z then inl (Errorf msg_max_count_required)
      else if (mergedMin d props =? 0)%Z then inl (Errorf msg_min_count_required)
      else if (mergedMax d props <? mergedMin d props)%Z then inl (Errorf msg_max_ge_min)
      else inr (snd (applyDeltas d props))
    else if (0 <? mergedMin d props)%Z || (0 <? mergedMax d props)%Z
         then inl (Errorf msg_nil_when_disabled)
         else inr (set_MinCount None (set_MaxCount None (snd (applyDeltas d props)))).
Proof. rewrite buildUpdatePayload_eq. reflexivity. Qed.

(** With recorded values that mirror the fetched properties, and declared
    values within the schema, the merged triple is the declared one. *)
Lemma merged_in_sync (d : ResourceData)
  (props : ManagedClusterAgentPoolProfileProperties) :
  schema_ok (values d) -> in_sync d props ->
  mergedEnabled d props = enable_auto_scaling (values d) /\
  mergedMax d props = max_count (values d) /\
  mergedMin d props = min_count (values d).
Proof.
  intros Hok (Hen & Hmax & Hmin).
  unfold mergedMax, mergedMin.
  destruct (applyDeltas_autoscale d props) as (-> & _ & -> & ->).
  unfold HasChange.
  repeat split.
  - case_bool_decide as H; [reflexivity |].
    rewrite <- Hen. exact H.
  - case_bool_decide as H; simpl.
    + apply int32_small.
      destruct (ok_max_count _ Hok) as [-> | Hb]; [| unfold IntBetween in Hb]; lia.
    + rewrite <- Hmax. exact H.
  - case_bool_decide as H; simpl.
    + apply int32_small.
      destruct (ok_min_count _ Hok) as [-> | Hb]; [| unfold IntBetween in Hb]; lia.
    + rewrite <- Hmin. exact H.
Qed.

(** C5. Whenever the update path builds a payload and the merged result
    has auto-scaling off, the payload says so and both bounds in it are nil,
    whatever the fetched properties or the declared values held. *)
Theorem update_clears_bounds_when_disabled (d : ResourceData)
  (props p : ManagedClusterAgentPoolProfileProperties) :
  buildUpdatePayload d props = inr p ->
  mergedEnabled d props = false ->
  MinCount p = None /\ MaxCount p = None /\
  deref false (EnableAutoScaling p) = false.
Proof.
  intros Hp Hoff.
  rewrite buildUpdatePayload_cases, Hoff in Hp.
  destruct ((0 <? mergedMin d props)%Z || (0 <? mergedMax d props)%Z);
    [discriminate |].
  injection Hp as <-.
  rewrite mergedEnabled_payload in Hoff.
  unfold_setters. auto.
Qed.

(** The example of the specification: a pool last seen with auto-scaling on
    between 1 and 5 nodes, and a declaration that turns auto-scaling off. *)
Lemma update_clears_bounds_when_disabled_witness :
  exists p,
    buildUpdatePayload
      (exampleData (exampleConfig true 3 1 5 Regular "" float_zero ∅)
                   (exampleConfig false 3 0 0 Regular "" float_zero ∅))
      (observedProps (Some true) (Some 1%Z) (Some 5%Z)) = inr p /\
    MinCount p = None /\ MaxCount p = None /\
    deref false (EnableAutoScaling p) = false.
Proof.
  eexists. split; [vm_compute; reflexivity |].
  eapply (update_clears_bounds_when_disabled
            (exampleData (exampleConfig true 3 1 5 Regular "" float_zero ∅)
                         (exampleConfig false 3 0 0 Regular "" float_zero ∅))
            (observedProps (Some true) (Some 1%Z) (Some 5%Z))).
  - vm_compute. reflexivity.
  - vm_compute. reflexivity.
Defined.

(** ** The auto-scaling bounds *)

(** C4, as the code has it.  On create, a declaration with auto-scaling on
    is accepted exactly when both bounds are above 0 and [min_count] does not
    exceed [max_count] (equal bounds pass).  On update the test runs on the
    merged values, the fetched bound unless the declared one changed, and asks
    for bounds other than 0 with the minimum not above the maximum; when the
    recorded values mirror the fetched pool and the declaration is within the
    schema, that is the same test on the declared bounds. *)
Theorem autoscale_bounds_checked (c : Config) (d : ResourceData)
  (props : ManagedClusterAgentPoolProfileProperties) :
  (enable_auto_scaling c = true ->
   ((exists a, buildCreatePayload c = inr a) <->
    (0 < min_count c /\ 0 < max_count c /\ min_count c <= max_count c)%Z)) /\
  (mergedEnabled d props = true ->
   ((exists p, buildUpdatePayload d props = inr p) <->
    (mergedMin d props <> 0 /\ mergedMax d props <> 0 /\
     mergedMin d props <= mergedMax d props)%Z)) /\
  (schema_ok (values d) -> in_sync d props ->
   enable_auto_scaling (values d) = true ->
   ((exists p, buildUpdatePayload d props = inr p) <->
    (0 < min_count (values d) /\ 0 < max_count (values d) /\
     min_count (values d) <= max_count (values d))%Z)).
Proof.
  assert (Hmerged : mergedEnabled d props = true ->
    ((exists p, buildUpdatePayload d props = inr p) <->
     (mergedMin d props <> 0 /\ mergedMax d props <> 0 /\
      mergedMin d props <= mergedMax d props)%Z)).
  { intros Hen. rewrite buildUpdatePayload_cases, Hen.
    destruct (Z.eqb_spec (mergedMax d props) 0) as [Hmax | Hmax].
    { split; [intros [p Hp]; discriminate | lia]. }
    destruct (Z.eqb_spec (mergedMin d props) 0) as [Hmin | Hmin].
    { split; [intros [p Hp]; discriminate | lia]. }
    destruct (Z.ltb_spec (mergedMax d props) (mergedMin d props)) as [Hlt | Hle].
    { split; [intros [p Hp]; discriminate | lia]. }
    split; [lia | eauto]. }
  split; [| split; [exact Hmerged |]].
  - intros Hen. unfold buildCreatePayload.
    rewrite createAutoScale_cases, Hen.
    destruct (Z.leb_spec (max_count c) 0) as [Hmax | Hmax].
    { split; [intros [a Ha]; discriminate | lia]. }
    destruct (Z.leb_spec (min_count c) 0) as [Hmin | Hmin].
    { split; [intros [a Ha]; discriminate | lia]. }
    destruct (Z.ltb_spec (max_count c) (min_count c)) as [Hlt | Hle].
    { split; [intros [a Ha]; discriminate | lia]. }
    split; [lia | eauto].
  - intros Hok Hsync Hen.
    destruct (merged_in_sync d props Hok Hsync) as (Hen' & Hmax & Hmin).
    rewrite Hmerged by congruence. rewrite Hmax, Hmin.
    destruct (ok_max_count _ Hok) as [H1 | H1], (ok_min_count _ Hok) as [H2 | H2];
      unfold IntBetween in *; lia.
Qed.

Lemma autoscale_bounds_checked_witness :
  (exists a, buildCreatePayload (exampleConfig true 0 2 2 Regular "" float_zero ∅) = inr a) /\
  ~ (exists a, buildCreatePayload (exampleConfig true 0 5 2 Regular "" float_zero ∅) = inr a).
Proof.
  split.
  - apply (proj1 (autoscale_bounds_checked
                    (exampleConfig true 0 2 2 Regular "" float_zero ∅)
                    (exampleData (exampleConfig true 0 2 2 Regular "" float_zero ∅)
                                 (exampleConfig true 0 2 2 Regular "" float_zero ∅))
                    (observedProps None None None)));
      [reflexivity | simpl; lia].
  - intros H.
    apply (proj1 (autoscale_bounds_checked
                    (exampleConfig true 0 5 2 Regular "" float_zero ∅)
                    (exampleData (exampleConfig true 0 5 2 Regular "" float_zero ∅)
                                 (exampleConfig true 0 5 2 Regular "" float_zero ∅))
                    (observedProps None None None))) in H;
      [simpl in H; lia | reflexivity].
Defined.

(** C4 as written fails on update: a declaration with auto-scaling on and
    no bounds passes the check when the fetched pool carries bounds that the
    recorded values do not show (only the tags changed here). *)
Lemma update_accepts_undeclared_bounds :
  let d := exampleData (exampleConfig true 3 0 0 Regular "" float_zero ∅)
                       (exampleConfig true 3 0 0 Regular "" float_zero {[ "a" := "1" ]}) in
  let props := observedProps (Some true) (Some 1%Z) (Some 5%Z) in
  enable_auto_scaling (values d) = true /\
  min_count (values d) = 0%Z /\ max_count (values d) = 0%Z /\
  exists p, buildUpdatePayload d props = inr p.
Proof.
  repeat split. eexists. vm_compute. reflexivity.
Qed.

(** With auto-scaling off, a bound above 0 stops the create path. *)
Lemma buildCreatePayload_disabled_bounds (c : Config) :
  enable_auto_scaling c = false ->
  (0 < min_count c \/ 0 < max_count c)%Z ->
  buildCreatePayload c = inl (Errorf msg_null_when_disabled).
Proof.
  intros He Hor. apply buildCreatePayload_error.
  rewrite createAutoScale_cases, He.
  destruct (Z.ltb_spec 0 (min_count c)), (Z.ltb_spec 0 (max_count c));
    try reflexivity; lia.
Qed.

(** ** Runs against an arbitrary remote side *)

Section Runs.

Context {S : Type} (h : handler S).
Variable KubernetesClusterID : string -> error + ClusterId.t.
Variable KubernetesNodePoolID : string -> error + NodePoolId.t.

Let Create := resourceArmKubernetesClusterNodePoolCreate KubernetesClusterID KubernetesNodePoolID.
Let Read := resourceArmKubernetesClusterNodePoolRead KubernetesNodePoolID.
Let Update := resourceArmKubernetesClusterNodePoolUpdate KubernetesNodePoolID.

(** Take the reply of the next remote call apart. *)
Ltac reply :=
  match goal with
  | |- context [onClustersGet h ?a ?b ?s] =>
      destruct (onClustersGet h a b s) as [[? [?|] ?] ?] eqn:?
  | |- context [onPoolsGet h ?a ?b ?c ?s] =>
      destruct (onPoolsGet h a b c s) as [[? [?|] ?] ?] eqn:?
  | |- context [onCreateOrUpdate h ?a ?b ?c ?p ?s] =>
      destruct (onCreateOrUpdate h a b c p s) as [[?|] ?] eqn:?
  | |- context [onWait h ?s] =>
      destruct (onWait h s) as [[?|] ?] eqn:?
  end; simpl.

Ltac branch :=
  match goal with
  | |- context [if ?b then _ else _] => destruct b eqn:?; simpl
  end.

Ltac rejected := split; [eexists; reflexivity | repeat constructor].

(** A read issues no mutating call. *)
Lemma read_no_mutation (d : ResourceData) (s : S) :
  Forall (fun c => mutating c = false) (snd (run h (Read d) s)).
Proof.
  unfold Read, resourceArmKubernetesClusterNodePoolRead.
  destruct (KubernetesNodePoolID _); simpl; [constructor |].
  reply; [branch; repeat constructor |].
  reply; [branch; repeat constructor |].
  destruct (flatten _ _ _); repeat constructor.
Qed.

(** A create whose payload cannot be built ends in an error without a
    mutating call, whatever the remote side answers. *)
Lemma create_invalid_rejected (d : ResourceData) (s : S) (e : error) :
  buildCreatePayload (values d) = inl e ->
  rejected_before_mutation h (Create d) s.
Proof.
  intros He. unfold rejected_before_mutation, Create,
    resourceArmKubernetesClusterNodePoolCreate, createSubmit.
  rewrite He.
  destruct (KubernetesClusterID _); simpl; [rejected |].
  reply; [branch; rejected |].
  destruct (defaultPoolIsVMSS _); simpl; [| rejected].
  destruct (IsNewResource d); simpl; [| rejected].
  reply.
  - branch; [rejected |].
    destruct (ID _) as [id |]; simpl; [| rejected].
    destruct (String.eqb id ""); rejected.
  - destruct (ID _) as [id |]; simpl; [| rejected].
    destruct (String.eqb id ""); rejected.
Qed.

(** An update whose merged payload is refused returns that error after the
    one fetch of the existing pool. *)
Lemma update_invalid_run (d : ResourceData) (s s' : S) (id : NodePoolId.t)
  (existing : Response AgentPool) (props : ManagedClusterAgentPoolProfileProperties)
  (e : error) :
  KubernetesNodePoolID (Id d) = inr id ->
  onPoolsGet h (NodePoolId.ResourceGroup id) (NodePoolId.ClusterName id)
    (NodePoolId.Name id) s = (existing, s') ->
  err existing = None ->
  Properties (result existing) = Some props ->
  buildUpdatePayload d props = inl e ->
  run h (Update d) s =
    ((Failure e, d),
     [CallPoolsGet (NodePoolId.ResourceGroup id) (NodePoolId.ClusterName id)
        (NodePoolId.Name id)]).
Proof.
  intros Hid Hget Herr Hprops He.
  unfold Update, resourceArmKubernetesClusterNodePoolUpdate.
  rewrite Hid. simpl. rewrite Hget, Herr, Hprops, He. reflexivity.
Qed.

(** An update whose merged payload is accepted submits exactly that payload
    right after the fetch. *)
Lemma update_valid_run (d : ResourceData) (s s' : S) (id : NodePoolId.t)
  (existing : Response AgentPool) (props p : ManagedClusterAgentPoolProfileProperties) :
  KubernetesNodePoolID (Id d) = inr id ->
  onPoolsGet h (NodePoolId.ResourceGroup id) (NodePoolId.ClusterName id)
    (NodePoolId.Name id) s = (existing, s') ->
  err existing = None ->
  Properties (result existing) = Some props ->
  buildUpdatePayload d props = inr p ->
  exists rest,
    snd (run h (Update d) s) =
      CallPoolsGet (NodePoolId.ResourceGroup id) (NodePoolId.ClusterName id)
        (NodePoolId.Name id)
      :: CallCreateOrUpdate (NodePoolId.ResourceGroup id) (NodePoolId.ClusterName id)
           (NodePoolId.Name id)
           {| ID := ID (result existing); Name := Name (result existing);
              Properties := Some p |}
      :: rest.
Proof.
  intros Hid Hget Herr Hprops Hp.
  unfold Update, resourceArmKubernetesClusterNodePoolUpdate.
  rewrite Hid. simpl. rewrite Hget, Herr, Hprops, Hp. simpl.
  destruct (onCreateOrUpdate h _ _ _ _ s') as [r s1].
  destruct (run h _ s1) as [a log]. simpl. eauto.
Qed.

(** ** Rejection of bounds while auto-scaling is off *)

(** C3, as the code has it.  With auto-scaling off, a bound above 0 makes
    the create end in an error before any mutating call, the validation error
    itself once the earlier checks have passed.  The update applies the test to
    the merged values: with the merged flag off and a merged bound above 0 it
    returns the validation error right after fetching the pool.  When the
    recorded values mirror the fetched pool and the declaration is within the
    schema, the merged values are the declared ones, so a declared bound other
    than 0 is refused in the same way. *)
Theorem disabled_bounds_rejected (d : ResourceData) (s s' : S) (id : NodePoolId.t)
  (existing : Response AgentPool) (props : ManagedClusterAgentPoolProfileProperties) :
  (enable_auto_scaling (values d) = false ->
   (0 < min_count (values d) \/ 0 < max_count (values d))%Z ->
   buildCreatePayload (values d) = inl (Errorf msg_null_when_disabled) /\
   rejected_before_mutation h (Create d) s) /\
  (KubernetesNodePoolID (Id d) = inr id ->
   onPoolsGet h (NodePoolId.ResourceGroup id) (NodePoolId.ClusterName id)
     (NodePoolId.Name id) s = (existing, s') ->
   err existing = None ->
   Properties (result existing) = Some props ->
   (mergedEnabled d props = false ->
    (0 < mergedMin d props \/ 0 < mergedMax d props)%Z ->
    run h (Update d) s =
      ((Failure (Errorf msg_nil_when_disabled), d),
       [CallPoolsGet (NodePoolId.ResourceGroup id) (NodePoolId.ClusterName id)
          (NodePoolId.Name id)])) /\
   (schema_ok (values d) -> in_sync d props ->
    enable_auto_scaling (values d) = false ->
    (min_count (values d) <> 0 \/ max_count (values d) <> 0)%Z ->
    run h (Update d) s =
      ((Failure (Errorf msg_nil_when_disabled), d),
       [CallPoolsGet (NodePoolId.ResourceGroup id) (NodePoolId.ClusterName id)
          (NodePoolId.Name id)]))).
Proof.
  assert (Hmerged : mergedEnabled d props = false ->
    (0 < mergedMin d props \/ 0 < mergedMax d props)%Z ->
    buildUpdatePayload d props = inl (Errorf msg_nil_when_disabled)).
  { intros Hen Hor. rewrite buildUpdatePayload_cases, Hen.
    destruct (Z.ltb_spec 0 (mergedMin d props)), (Z.ltb_spec 0 (mergedMax d props));
      try reflexivity; lia. }
  split.
  - intros Hen Hor.
    assert (He : buildCreatePayload (values d) = inl (Errorf msg_null_when_disabled))
      by (apply buildCreatePayload_disabled_bounds; assumption).
    split; [exact He |]. eapply create_invalid_rejected; exact He.
  - intros Hid Hget Herr Hprops. split.
    + intros Hen Hor. eapply update_invalid_run; eauto.
    + intros Hok Hsync Hen Hor.
      destruct (merged_in_sync d props Hok Hsync) as (Hen' & Hmax & Hmin).
      eapply update_invalid_run; eauto.
      apply Hmerged; [congruence |].
      rewrite Hmax, Hmin.
      destruct (ok_max_count _ Hok) as [H1 | H1], (ok_min_count _ Hok) as [H2 | H2];
        unfold IntBetween in *; lia.
Qed.

(** ** Read *)


(** ** Create against an incompatible parent *)

(** The parent counts as backed by scale sets when one of its pools is of
    that type; a parent without properties or without a pool list does not. *)
Lemma anyPoolIsVMSS_false (pools : list ManagedClusterAgentPoolProfile) :
  anyPoolIsVMSS pools = false <->
  Forall (fun p => PoolType p <> VirtualMachineScaleSets) pools.
Proof.
  induction pools as [| p rest IH]; simpl.
  - split; [constructor | reflexivity].
  - destruct (String.eqb_spec (PoolType p) VirtualMachineScaleSets) as [He | Hne].
    + split; [discriminate | intros H; inversion H; done].
    + rewrite IH. split; [intros H; constructor; assumption | intros H; inversion H; done].
Qed.

(** C9. When the fetched parent has no pool of the scale-set type, the
    create ends in the incompatible-parent error and the fetch of the parent is
    the only call it has issued: no look-up of an existing pool, no mutation. *)
Theorem create_rejects_incompatible_parent (d : ResourceData) (s s1 : S)
  (cid : ClusterId.t) (cluster : Response ManagedCluster) :
  KubernetesClusterID (kubernetes_cluster_id (values d)) = inr cid ->
  onClustersGet h (ClusterId.ResourceGroup cid) (ClusterId.Name cid) s = (cluster, s1) ->
  err cluster = None ->
  defaultPoolIsVMSS (result cluster) = false ->
  run h (Create d) s =
    ((Failure DefaultPoolNotVMSS, d),
     [CallClustersGet (ClusterId.ResourceGroup cid) (ClusterId.Name cid)]).
Proof.
  intros Hid Hget Herr Hvmss.
  unfold Create, resourceArmKubernetesClusterNodePoolCreate.
  rewrite Hid. simpl. rewrite Hget, Herr, Hvmss. reflexivity.
Qed.

End Runs.

(** ** The statements above at concrete inputs *)

Lemma disabled_bounds_rejected_witness :
  rejected_before_mutation
    (constHandler (found (exampleCluster VirtualMachineScaleSets))
                  (failed (observedPool None) true) None None)
    (resourceArmKubernetesClusterNodePoolCreate exampleClusterID exampleNodePoolID
       (newData (exampleConfig false 3 0 5 Regular "" float_zero ∅)))
    tt /\
  run (constHandler (found (exampleCluster VirtualMachineScaleSets))
                    (found (observedPool (Some (observedProps (Some false) None None))))
                    None None)
      (resourceArmKubernetesClusterNodePoolUpdate exampleNodePoolID
         (exampleData (exampleConfig false 3 0 0 Regular "" float_zero ∅)
                      (exampleConfig false 3 0 5 Regular "" float_zero ∅)))
      tt =
    ((Failure (Errorf msg_nil_when_disabled),
      exampleData (exampleConfig false 3 0 0 Regular "" float_zero ∅)
                  (exampleConfig false 3 0 5 Regular "" float_zero ∅)),
     [CallPoolsGet "group1" "cluster1" "pool1"]).
Proof.
  split.
  - apply (proj1 (disabled_bounds_rejected
                    (constHandler (found (exampleCluster VirtualMachineScaleSets))
                                  (failed (observedPool None) true) None None)
                    exampleClusterID exampleNodePoolID
                    (newData (exampleConfig false 3 0 5 Regular "" float_zero ∅))
                    tt tt (NodePoolId.mk "group1" "cluster1" "pool1")
                    (failed (observedPool None) true)
                    (observedProps None None None)));
      [reflexivity | simpl; lia].
  - apply (proj2 (disabled_bounds_rejected
                    (constHandler (found (exampleCluster VirtualMachineScaleSets))
                       (found (observedPool (Some (observedProps (Some false) None None))))
                       None None)
                    exampleClusterID exampleNodePoolID
                    (exampleData (exampleConfig false 3 0 0 Regular "" float_zero ∅)
                                 (exampleConfig false 3 0 5 Regular "" float_zero ∅))
                    tt tt (NodePoolId.mk "group1" "cluster1" "pool1")
                    (found (observedPool (Some (observedProps (Some false) None None))))
                    (observedProps (Some false) None None)));
      try reflexivity.
    + constructor; simpl; unfold IntBetween, IntAtLeast, Linux, Regular;
        first [lia | discriminate | auto].
    + repeat split.
    + simpl. lia.
Defined.

(** C3 as written fails on update: the declaration keeps [max_count = 5]
    with auto-scaling off, the recorded values say the same, and the fetched
    pool has no bounds; the update passes the check and submits. *)
Lemma update_ignores_declared_bound :
  let d := exampleData (exampleConfig false 3 0 5 Regular "" float_zero ∅)
                       (exampleConfig false 3 0 5 Regular "" float_zero {[ "a" := "1" ]}) in
  let h := constHandler (found (exampleCluster VirtualMachineScaleSets))
             (found (observedPool (Some (observedProps (Some false) None None))))
             None None in
  enable_auto_scaling (values d) = false /\ max_count (values d) = 5%Z /\
  fst (fst (run h (resourceArmKubernetesClusterNodePoolUpdate exampleNodePoolID d) tt))
    = Success /\
  map mutating (snd (run h (resourceArmKubernetesClusterNodePoolUpdate exampleNodePoolID d) tt))
    = [false; true; false; false; false].
Proof.
  repeat split; vm_compute; reflexivity.
Qed.


Lemma create_rejects_incompatible_parent_witness :
  run (constHandler (found (exampleCluster AvailabilitySet))
                    (found (observedPool None)) None None)
      (resourceArmKubernetesClusterNodePoolCreate exampleClusterID exampleNodePoolID
         (newData (exampleConfig false 3 0 0 Regular "" float_zero ∅)))
      tt =
    ((Failure DefaultPoolNotVMSS, newData (exampleConfig false 3 0 0 Regular "" float_zero ∅)),
     [CallClustersGet "group1" "cluster1"]).
Proof.
  apply (create_rejects_incompatible_parent
           (constHandler (found (exampleCluster AvailabilitySet))
                         (found (observedPool None)) None None)
           exampleClusterID exampleNodePoolID
           (newData (exampleConfig false 3 0 0 Regular "" float_zero ∅))
           tt tt (ClusterId.mk "group1" "cluster1")
           (found (exampleCluster AvailabilitySet)));
    reflexivity.
Defined.

(** ** Round trip of the create payload *)

Lemma omap_id_fmap_Some (m : gmap string string) : omap id (Some <$> m) = m.
Proof.
  apply map_eq. intros k. rewrite lookup_omap, lookup_fmap.
  destruct (m !! k); reflexivity.
Qed.

Lemma labels_round_trip (m : gmap string string) :
  FlattenMapStringPtrString
    (if (0 <? Z.of_nat (size m))%Z then Some (ExpandMapStringPtrString m) else None) = m.
Proof.
  destruct (Z.ltb_spec 0 (Z.of_nat (size m))) as [Hpos | Hzero]; simpl.
  - apply omap_id_fmap_Some.
  - symmetry. apply map_size_empty_iff. lia.
Qed.

Lemma slice_round_trip (l : list string) :
  FlattenStringSlice (match l with [] => None | _ => Some l end) = l.
Proof. destruct l; reflexivity. Qed.

Lemma string_round_trip (v : string) :
  deref "" (if String.eqb v "" then None else Some v) = v.
Proof. destruct (String.eqb_spec v ""); simpl; congruence. Qed.

(** The profile an accepted declaration is translated to. *)
Lemma createAutoScale_ok (c : Config) (p : ManagedClusterAgentPoolProfileProperties) :
  createAutoScale c (createProfile c) = inr p ->
  Count p = Some (if enable_auto_scaling c && (node_count c =? 0)%Z
                  then int32 (min_count c) else int32 (node_count c)) /\
  MaxCount p = (if enable_auto_scaling c then Some (int32 (max_count c)) else None) /\
  MinCount p = (if enable_auto_scaling c then Some (int32 (min_count c)) else None) /\
  (if enable_auto_scaling c then (0 < min_count c /\ 0 < max_count c)%Z
   else (min_count c <= 0 /\ max_count c <= 0)%Z).
Proof.
  rewrite createAutoScale_cases, createProfile_eq.
  destruct (enable_auto_scaling c); simpl.
  - destruct (Z.leb_spec (max_count c) 0); [discriminate |].
    destruct (Z.leb_spec (min_count c) 0); [discriminate |].
    destruct (max_count c <? min_count c)%Z; [discriminate |].
    intros [= <-]. destruct (node_count c =? 0)%Z; unfold_setters; repeat split; lia.
  - destruct (Z.ltb_spec 0 (min_count c)), (Z.ltb_spec 0 (max_count c));
      try discriminate.
    intros [= <-]. unfold_setters. repeat split; lia.
Qed.

(** C2, as the code has it.  For a declaration within the schema that the
    create path accepts, read back under its own name and parent identifier,
    reflection of the create payload reproduces every field exactly, with
    these exceptions: [node_count] reads back as [min_count] when auto-scaling
    is on and no [node_count] was declared; [max_pods] and [os_disk_size_gb]
    are reproduced as long as they fit the 32-bit field of the payload (and
    [max_pods] is not negative); a [max_bid_price] of negative zero reads back
    as zero. *)
Theorem create_round_trip (id : NodePoolId.t) (cluster : ManagedCluster) (c : Config) :
  schema_ok c ->
  (exists a, buildCreatePayload c = inr a) ->
  NodePoolId.Name id = name c ->
  ClusterID cluster = Some (kubernetes_cluster_id c) ->
  exists c', roundTrip id cluster c = Some c' /\
    name c' = name c /\
    kubernetes_cluster_id c' = kubernetes_cluster_id c /\
    tags c' = tags c /\
    vm_size c' = vm_size c /\
    availability_zones c' = availability_zones c /\
    enable_auto_scaling c' = enable_auto_scaling c /\
    enable_node_public_ip c' = enable_node_public_ip c /\
    max_count c' = max_count c /\
    min_count c' = min_count c /\
    node_labels c' = node_labels c /\
    node_taints c' = node_taints c /\
    os_type c' = os_type c /\
    vnet_subnet_id c' = vnet_subnet_id c /\
    priority c' = priority c /\
    eviction_policy c' = eviction_policy c /\
    node_count c' =
      (if enable_auto_scaling c && (node_count c =? 0)%Z
       then min_count c else node_count c) /\
    ((0 <= max_pods c < 2 ^ 31)%Z -> max_pods c' = max_pods c) /\
    ((os_disk_size_gb c < 2 ^ 31)%Z -> os_disk_size_gb c' = os_disk_size_gb c) /\
    (max_bid_price c <> S754_zero true -> max_bid_price c' = max_bid_price c).
Proof.
  intros Hok [a Ha] Hname Hcluster.
  apply buildCreatePayload_inv in Ha as (p & Hp & _).
  unfold roundTrip, buildCreatePayload. rewrite Hp.
  unfold flatten. cbn [Properties].
  eexists. split; [reflexivity |]. cbn [name kubernetes_cluster_id tags vm_size
    availability_zones enable_auto_scaling enable_node_public_ip max_count max_pods
    min_count node_labels node_taints os_disk_size_gb os_type vnet_subnet_id priority
    eviction_policy max_bid_price node_count].
  destruct (createAutoScale_ok c p Hp) as (HCount & HMax & HMin & Hbounds).
  destruct (createAutoScale_frame c _ p Hp)
    as (HVMSize & HDisk & HVnet & HPods & HOs & HEnable & _ & HAz & HIp & HPrio & HEv
        & HSpot & HTags & HLabels & HTaints).
  rewrite createProfile_eq in *.
  cbn [VMSize OsDiskSizeGB VnetSubnetID MaxPods OsType EnableAutoScaling
       AvailabilityZones EnableNodePublicIP ScaleSetPriority ScaleSetEvictionPolicy
       SpotMaxPrice Tags NodeLabels NodeTaints] in *.
  rewrite HCount, HMax, HMin, HVMSize, HDisk, HVnet, HPods, HOs, HEnable, HAz, HIp,
    HPrio, HEv, HSpot, HTags, HLabels, HTaints.
  assert (Hmin32 : int32 (min_count c) = min_count c).
  { apply int32_small.
    destruct (ok_min_count c Hok) as [-> | H]; [| unfold IntBetween in H]; lia. }
  assert (Hmax32 : int32 (max_count c) = max_count c).
  { apply int32_small.
    destruct (ok_max_count c Hok) as [-> | H]; [| unfold IntBetween in H]; lia. }
  assert (Hcount32 : int32 (node_count c) = node_count c).
  { apply int32_small.
    destruct (ok_node_count c Hok) as [-> | H]; [| unfold IntBetween in H]; lia. }
  repeat split.
  - exact Hname.
  - rewrite Hcluster. reflexivity.
  - apply omap_id_fmap_Some.
  - apply slice_round_trip.
  - destruct (enable_auto_scaling c); [exact Hmax32 |].
    destruct (ok_max_count c Hok) as [-> | H]; [| unfold IntBetween in H]; lia.
  - destruct (enable_auto_scaling c); [exact Hmin32 |].
    destruct (ok_min_count c Hok) as [-> | H]; [| unfold IntBetween in H]; lia.
  - apply labels_round_trip.
  - apply slice_round_trip.
  - apply string_round_trip.
  - destruct (enable_auto_scaling c && (node_count c =? 0)%Z); assumption.
  - intros Hpods. rewrite int32_small by lia.
    destruct (Z.ltb_spec 0 (max_pods c)); [reflexivity | lia].
  - intros Hdisk.
    destruct (Z.ltb_spec 0 (os_disk_size_gb c)) as [Hpos | Hzero].
    + apply int32_small. lia.
    + destruct (ok_os_disk_size_gb c Hok) as [-> | H]; [| unfold IntAtLeast in H]; lia.
  - intros Hneg. destruct (float_ne_zero (max_bid_price c)) eqn:Hf; [reflexivity |].
    apply float_ne_zero_false in Hf as [[] Hf]; [congruence |].
    rewrite Hf. reflexivity.
Qed.

Lemma create_round_trip_witness :
  exists c',
    roundTrip (NodePoolId.mk "group1" "cluster1" "pool1")
      (exampleCluster VirtualMachineScaleSets)
      (exampleConfig true 3 2 5 Spot Delete half ∅) = Some c' /\
    node_count c' = 3%Z /\ min_count c' = 2%Z /\ max_count c' = 5%Z /\
    enable_auto_scaling c' = true /\ priority c' = Spot /\
    eviction_policy c' = Delete /\ max_bid_price c' = half.
Proof.
  destruct (create_round_trip (NodePoolId.mk "group1" "cluster1" "pool1")
              (exampleCluster VirtualMachineScaleSets)
              (exampleConfig true 3 2 5 Spot Delete half ∅))
    as (c' & Hc' & _ & _ & _ & _ & _ & Hen & _ & Hmax & Hmin & _ & _ & _ & _ & Hprio
        & Hev & Hcount & _ & _ & Hprice).
  - constructor; simpl; unfold IntBetween, IntAtLeast, Linux, Spot, Delete;
      first [lia | discriminate | auto].
  - eexists. reflexivity.
  - reflexivity.
  - reflexivity.
  - exists c'. split; [exact Hc' |].
    repeat split; try assumption. apply Hprice. discriminate.
Defined.

(** C2 as written fails for [node_count]: a declaration with auto-scaling
    between 2 and 5 nodes and no [node_count] passes both checks and reads
    back with [node_count = 2]. *)
Lemma round_trip_changes_node_count :
  let c := exampleConfig true 0 2 5 Regular "" float_zero ∅ in
  schema_ok c /\ customizeDiff c = None /\
  (exists a, buildCreatePayload c = inr a) /\
  exists c',
    roundTrip (NodePoolId.mk "group1" "cluster1" "pool1")
      (exampleCluster VirtualMachineScaleSets) c = Some c' /\
    node_count c = 0%Z /\ node_count c' = 2%Z.
Proof.
  simpl. split; [| split; [reflexivity | split]].
  - constructor; simpl; unfold IntBetween, IntAtLeast, Linux, Regular;
      first [lia | discriminate | auto].
  - eexists. reflexivity.
  - eexists. split; [reflexivity |]. split; reflexivity.
Qed.

(** The other exceptions, at concrete declarations: a negative [max_pods]
    (the schema puts no bound on it) and an [os_disk_size_gb] beyond 32 bits
    read back changed. *)
Example round_trip_negative_max_pods :
  let c := {| name := "pool1"; kubernetes_cluster_id := "cluster1"; node_count := 3;
              tags := ∅; vm_size := "Standard_D2"; availability_zones := [];
              enable_auto_scaling := false; enable_node_public_ip := false;
              max_count := 0; max_pods := -1; min_count := 0; node_labels := ∅;
              node_taints := []; os_disk_size_gb := 0; os_type := Linux;
              vnet_subnet_id := ""; priority := Regular; eviction_policy := "";
              max_bid_price := float_zero |} in
  max_pods <$> roundTrip (NodePoolId.mk "group1" "cluster1" "pool1")
                 (exampleCluster VirtualMachineScaleSets) c = Some 0%Z.
Proof. reflexivity. Qed.

Example round_trip_wide_os_disk_size :
  let c := {| name := "pool1"; kubernetes_cluster_id := "cluster1"; node_count := 3;
              tags := ∅; vm_size := "Standard_D2"; availability_zones := [];
              enable_auto_scaling := false; enable_node_public_ip := false;
              max_count := 0; max_pods := 0; min_count := 0; node_labels := ∅;
              node_taints := []; os_disk_size_gb := 2 ^ 31; os_type := Linux;
              vnet_subnet_id := ""; priority := Regular; eviction_policy := "";
              max_bid_price := float_zero |} in
  os_disk_size_gb <$> roundTrip (NodePoolId.mk "group1" "cluster1" "pool1")
                        (exampleCluster VirtualMachineScaleSets) c = Some (- 2 ^ 31)%Z.
Proof. reflexivity. Qed.

(** * Further properties of the translation and the delta builder *)

(** ** What a create sends *)

(** X1. The payload of a create carries no identifier, the declared name,
    the scale-set pool type, and the declared size, operating system,
    priority, auto-scaling flag, public-IP flag and tags. *)
Theorem create_payload_fixed_fields (c : Config) (a : AgentPool) :
  buildCreatePayload c = inr a ->
  ID a = None /\ Name a = Some (name c) /\
  exists p, Properties a = Some p /\
    Type_ p = VirtualMachineScaleSets /\
    VMSize p = vm_size c /\ OsType p = os_type c /\
    ScaleSetPriority p = priority c /\
    EnableAutoScaling p = Some (enable_auto_scaling c) /\
    EnableNodePublicIP p = Some (enable_node_public_ip c) /\
    Tags p = Some (Some <$> tags c).
Proof.
  intros Ha. apply buildCreatePayload_inv in Ha as (p & Hp & ->).
  split; [reflexivity |]. split; [reflexivity |].
  exists p. split; [reflexivity |].
  apply createAutoScale_frame in Hp.
  destruct Hp as (HVMSize & _ & _ & _ & HOs & HEnable & HType & _ & HIp & HPrio & _ & _
                  & HTags & _ & _).
  rewrite HVMSize, HOs, HEnable, HType, HIp, HPrio, HTags, createProfile_eq.
  repeat split.
Qed.

Lemma create_payload_fixed_fields_witness :
  exists a p,
    buildCreatePayload (exampleConfig false 3 0 0 Spot Delete half ∅) = inr a /\
    Properties a = Some p /\ Name a = Some "pool1" /\
    Type_ p = VirtualMachineScaleSets /\ ScaleSetPriority p = Spot.
Proof.
  destruct (create_payload_fixed_fields (exampleConfig false 3 0 0 Spot Delete half ∅) _
              eq_refl) as (_ & Hname & p & Hp & Hty & _ & _ & Hprio & _).
  eexists. exists p. split; [reflexivity |]. repeat split; assumption.
Defined.

(** X2. An optional field that is set is sent as declared: a positive
    [max_pods] or [os_disk_size_gb] that fits 32 bits, a bid price that does
    not compare equal to 0, a non-empty subnet or eviction policy, and
    non-empty zones, labels and taints. *)
Theorem create_sends_set_fields (c : Config) (a : AgentPool) :
  buildCreatePayload c = inr a ->
  exists p, Properties a = Some p /\
    ((0 < max_pods c < 2 ^ 31)%Z -> MaxPods p = Some (max_pods c)) /\
    ((0 < os_disk_size_gb c < 2 ^ 31)%Z -> OsDiskSizeGB p = Some (os_disk_size_gb c)) /\
    (float_ne_zero (max_bid_price c) = true -> SpotMaxPrice p = Some (max_bid_price c)) /\
    (vnet_subnet_id c <> "" -> VnetSubnetID p = Some (vnet_subnet_id c)) /\
    ScaleSetEvictionPolicy p = eviction_policy c /\
    (availability_zones c <> [] -> AvailabilityZones p = Some (availability_zones c)) /\
    (node_labels c <> ∅ -> NodeLabels p = Some (Some <$> node_labels c)) /\
    (node_taints c <> [] -> NodeTaints p = Some (node_taints c)).
Proof.
  intros Ha. apply buildCreatePayload_inv in Ha as (p & Hp & ->).
  exists p. split; [reflexivity |].
  apply createAutoScale_frame in Hp.
  destruct Hp as (_ & Hdisk & Hvnet & Hpods & _ & _ & _ & Haz & _ & _ & Hev & Hspot
                  & _ & Hlabels & Htaints).
  rewrite Hdisk, Hvnet, Hpods, Haz, Hev, Hspot, Hlabels, Htaints, createProfile_eq.
  cbn [MaxPods OsDiskSizeGB SpotMaxPrice VnetSubnetID ScaleSetEvictionPolicy
       AvailabilityZones NodeLabels NodeTaints].
  repeat split.
  - intros H. rewrite int32_small by lia.
    destruct (Z.ltb_spec 0 (max_pods c)); [reflexivity | lia].
  - intros H. rewrite int32_small by lia.
    destruct (Z.ltb_spec 0 (os_disk_size_gb c)); [reflexivity | lia].
  - intros ->. reflexivity.
  - intros H. destruct (String.eqb_spec (vnet_subnet_id c) ""); [done | reflexivity].
  - intros H. destruct (availability_zones c); [done | reflexivity].
  - intros H. destruct (Z.ltb_spec 0 (Z.of_nat (size (node_labels c)))) as [Hs | Hs];
      [reflexivity |].
    exfalso. apply H. apply map_size_empty_iff. lia.
  - intros H. destruct (node_taints c); [done | reflexivity].
Qed.

Lemma create_sends_set_fields_witness :
  exists a p,
    buildCreatePayload (exampleConfig false 3 0 0 Spot Delete half ∅) = inr a /\
    Properties a = Some p /\ SpotMaxPrice p = Some half /\
    ScaleSetEvictionPolicy p = Delete.
Proof.
  destruct (create_sends_set_fields (exampleConfig false 3 0 0 Spot Delete half ∅) _
              eq_refl) as (p & Hp & _ & _ & Hprice & _ & Hev & _).
  eexists. exists p. split; [reflexivity |]. split; [exact Hp |].
  split; [apply Hprice; reflexivity | exact Hev].
Defined.

(** X3. Pre-flight check and translation together: a declaration with
    priority [Regular] that passes [customizeDiff] yields a payload without
    eviction policy and without bid price. *)
Theorem regular_payload_has_no_spot_settings (c : Config) (a : AgentPool) :
  customizeDiff c = None ->
  priority c = Regular ->
  buildCreatePayload c = inr a ->
  exists p, Properties a = Some p /\
    ScaleSetPriority p = Regular /\
    ScaleSetEvictionPolicy p = "" /\ SpotMaxPrice p = None.
Proof.
  intros Hdiff Hprio Ha.
  rewrite customizeDiff_table, Hprio in Hdiff. simpl in Hdiff.
  destruct (float_ne_zero (max_bid_price c)) eqn:Hf,
    (String.eqb_spec (eviction_policy c) "") as [Hev | Hev];
    simpl in Hdiff; try discriminate.
  apply buildCreatePayload_inv in Ha as (p & Hp & ->).
  exists p. split; [reflexivity |].
  apply createAutoScale_frame in Hp.
  destruct Hp as (_ & _ & _ & _ & _ & _ & _ & _ & _ & HPrio & HEv & HSpot & _).
  rewrite HPrio, HEv, HSpot, createProfile_eq.
  cbn [ScaleSetPriority ScaleSetEvictionPolicy SpotMaxPrice].
  rewrite Hf. auto.
Qed.

Lemma regular_payload_has_no_spot_settings_witness :
  exists a p,
    buildCreatePayload (exampleConfig false 3 0 0 Regular "" float_zero ∅) = inr a /\
    Properties a = Some p /\ ScaleSetEvictionPolicy p = "" /\ SpotMaxPrice p = None.
Proof.
  destruct (regular_payload_has_no_spot_settings
              (exampleConfig false 3 0 0 Regular "" float_zero ∅) _
              eq_refl eq_refl eq_refl) as (p & Hp & _ & Hev & Hprice).
  eexists. exists p. split; [reflexivity |]. auto.
Defined.

(** X4. The auto-scale triple of an accepted create payload is consistent:
    for a declaration within the schema, with auto-scaling on both bounds are
    sent as declared and satisfy 1 <= min <= max <= 100, and the count sent is
    at least 1; with auto-scaling off neither bound is sent. *)
Theorem create_payload_autoscale_consistent (c : Config) (a : AgentPool) :
  schema_ok c ->
  buildCreatePayload c = inr a ->
  exists p, Properties a = Some p /\
    if enable_auto_scaling c then
      MinCount p = Some (min_count c) /\ MaxCount p = Some (max_count c) /\
      (1 <= min_count c <= max_count c)%Z /\ (max_count c <= 100)%Z /\
      exists n, Count p = Some n /\ (1 <= n <= 100)%Z
    else MinCount p = None /\ MaxCount p = None.
Proof.
  intros Hok Ha. apply buildCreatePayload_inv in Ha as (p & Hp & ->).
  exists p. split; [reflexivity |].
  destruct (createAutoScale_ok c p Hp) as (HCount & HMax & HMin & Hbounds).
  assert (Hle : enable_auto_scaling c = true -> (min_count c <= max_count c)%Z).
  { intros He. rewrite createAutoScale_cases, He in Hp.
    destruct (max_count c <=? 0)%Z; [discriminate |].
    destruct (min_count c <=? 0)%Z; [discriminate |].
    destruct (Z.ltb_spec (max_count c) (min_count c)); [discriminate | lia]. }
  rewrite HCount, HMax, HMin.
  destruct (enable_auto_scaling c); [| auto].
  destruct Hbounds as [Hmin Hmax]. specialize (Hle eq_refl).
  destruct (ok_max_count c Hok) as [H1 | H1]; [lia |].
  destruct (ok_min_count c Hok) as [H2 | H2]; [lia |].
  unfold IntBetween in *.
  rewrite !int32_small by lia.
  repeat split; try lia.
  simpl. destruct (Z.eqb_spec (node_count c) 0) as [H0 | H0].
  - exists (min_count c). split; [reflexivity | lia].
  - exists (node_count c). split.
    + f_equal. apply int32_small.
      destruct (ok_node_count c Hok) as [H3 | H3]; [| unfold IntBetween in H3]; lia.
    + destruct (ok_node_count c Hok) as [H3 | H3]; [| unfold IntBetween in H3]; lia.
Qed.

Lemma create_payload_autoscale_consistent_witness :
  exists a p,
    buildCreatePayload (exampleConfig true 0 2 5 Regular "" float_zero ∅) = inr a /\
    Properties a = Some p /\
    MinCount p = Some 2%Z /\ MaxCount p = Some 5%Z.
Proof.
  assert (Hok : schema_ok (exampleConfig true 0 2 5 Regular "" float_zero ∅)).
  { constructor; simpl; unfold IntBetween, IntAtLeast, Linux, Regular;
      first [lia | discriminate | auto]. }
  destruct (create_payload_autoscale_consistent
              (exampleConfig true 0 2 5 Regular "" float_zero ∅) _ Hok eq_refl)
    as (p & Hp & Hmin & Hmax & _).
  eexists. exists p. split; [reflexivity |]. auto.
Defined.

(** ** What an update sends *)

(** The check of the merged fields changes nothing but the two bounds. *)
Lemma buildUpdatePayload_frame (d : ResourceData)
  (props p : ManagedClusterAgentPoolProfileProperties) :
  buildUpdatePayload d props = inr p ->
  let q := snd (applyDeltas d props) in
  Count p = Count q /\ VMSize p = VMSize q /\ OsDiskSizeGB p = OsDiskSizeGB q /\
  VnetSubnetID p = VnetSubnetID q /\ MaxPods p = MaxPods q /\ OsType p = OsType q /\
  EnableAutoScaling p = EnableAutoScaling q /\ Type_ p = Type_ q /\
  AvailabilityZones p = AvailabilityZones q /\
  EnableNodePublicIP p = EnableNodePublicIP q /\
  ScaleSetPriority p = ScaleSetPriority q /\
  ScaleSetEvictionPolicy p = ScaleSetEvictionPolicy q /\
  SpotMaxPrice p = SpotMaxPrice q /\ Tags p = Tags q /\
  NodeLabels p = NodeLabels q /\ NodeTaints p = NodeTaints q.
Proof.
  rewrite buildUpdatePayload_cases. intros Hp q. subst q.
  destruct (mergedEnabled d props).
  - destruct (mergedMax d props =? 0)%Z; [discriminate |].
    destruct (mergedMin d props =? 0)%Z; [discriminate |].
    destruct (mergedMax d props <? mergedMin d props)%Z; [discriminate |].
    injection Hp as <-. repeat split.
  - destruct ((0 <? mergedMin d props)%Z || (0 <? mergedMax d props)%Z);
      [discriminate |].
    injection Hp as <-. repeat split.
Qed.

(** The declared changes, field by field. *)
Lemma applyDeltas_fields (d : ResourceData)
  (props : ManagedClusterAgentPoolProfileProperties) :
  let q := snd (applyDeltas d props) in
  VMSize q = VMSize props /\ OsDiskSizeGB q = OsDiskSizeGB props /\
  VnetSubnetID q = VnetSubnetID props /\ MaxPods q = MaxPods props /\
  OsType q = OsType props /\ Type_ q = Type_ props /\
  ScaleSetPriority q = ScaleSetPriority props /\
  ScaleSetEvictionPolicy q = ScaleSetEvictionPolicy props /\
  SpotMaxPrice q = SpotMaxPrice props /\ NodeLabels q = NodeLabels props /\
  NodeTaints q = NodeTaints props /\
  Count q = (if HasChange node_count d then Some (int32 (node_count (values d)))
             else Count props) /\
  Tags q = (if HasChange tags d then Some (tags_Expand (tags (values d)))
            else Tags props) /\
  AvailabilityZones q =
    (if HasChange availability_zones d
     then ExpandStringSlice (availability_zones (values d))
     else AvailabilityZones props) /\
  EnableNodePublicIP q =
    (if HasChange enable_node_public_ip d
     then Some (enable_node_public_ip (values d)) else EnableNodePublicIP props).
Proof.
  unfold applyDeltas.
  destruct (HasChange availability_zones d), (HasChange enable_auto_scaling d),
    (HasChange enable_node_public_ip d), (HasChange max_count d),
    (HasChange min_count d), (HasChange node_count d), (HasChange tags d);
    simpl; unfold_setters; repeat split.
Qed.

(** X5. An update never alters a creation-only field: whatever is declared,
    the size, disk size, subnet, pod limit, operating system, pool type,
    priority, eviction policy, bid price, labels and taints of the payload are
    those of the fetched pool. *)
Theorem update_keeps_creation_only_fields (d : ResourceData)
  (props p : ManagedClusterAgentPoolProfileProperties) :
  buildUpdatePayload d props = inr p ->
  VMSize p = VMSize props /\ OsDiskSizeGB p = OsDiskSizeGB props /\
  VnetSubnetID p = VnetSubnetID props /\ MaxPods p = MaxPods props /\
  OsType p = OsType props /\ Type_ p = Type_ props /\
  ScaleSetPriority p = ScaleSetPriority props /\
  ScaleSetEvictionPolicy p = ScaleSetEvictionPolicy props /\
  SpotMaxPrice p = SpotMaxPrice props /\ NodeLabels p = NodeLabels props /\
  NodeTaints p = NodeTaints props.
Proof.
  intros Hp.
  destruct (buildUpdatePayload_frame d props p Hp)
    as (_ & H1 & H2 & H3 & H4 & H5 & _ & H6 & _ & _ & H7 & H8 & H9 & _ & H10 & H11).
  destruct (applyDeltas_fields d props)
    as (G1 & G2 & G3 & G4 & G5 & G6 & G7 & G8 & G9 & G10 & G11 & _).
  rewrite H1, H2, H3, H4, H5, H6, H7, H8, H9, H10, H11.
  repeat split; assumption.
Qed.

(** X6. Delta patching of the count, the tags, the zones, the public-IP
    flag and the auto-scaling flag: a key whose declared value equals the
    recorded one leaves the fetched field as it is; a key that differs
    overwrites it with the declared value. *)
Theorem update_patches_changed_keys_only (d : ResourceData)
  (props p : ManagedClusterAgentPoolProfileProperties) :
  buildUpdatePayload d props = inr p ->
  (node_count (prior d) = node_count (values d) -> Count p = Count props) /\
  (node_count (prior d) <> node_count (values d) ->
   Count p = Some (int32 (node_count (values d)))) /\
  (tags (prior d) = tags (values d) -> Tags p = Tags props) /\
  (tags (prior d) <> tags (values d) -> Tags p = Some (Some <$> tags (values d))) /\
  (availability_zones (prior d) = availability_zones (values d) ->
   AvailabilityZones p = AvailabilityZones props) /\
  (availability_zones (prior d) <> availability_zones (values d) ->
   AvailabilityZones p = Some (availability_zones (values d))) /\
  (enable_node_public_ip (prior d) = enable_node_public_ip (values d) ->
   EnableNodePublicIP p = EnableNodePublicIP props) /\
  (enable_node_public_ip (prior d) <> enable_node_public_ip (values d) ->
   EnableNodePublicIP p = Some (enable_node_public_ip (values d))) /\
  (enable_auto_scaling (prior d) = enable_auto_scaling (values d) ->
   EnableAutoScaling p = EnableAutoScaling props) /\
  (enable_auto_scaling (prior d) <> enable_auto_scaling (values d) ->
   EnableAutoScaling p = Some (enable_auto_scaling (values d))).
Proof.
  intros Hp.
  destruct (buildUpdatePayload_frame d props p Hp)
    as (HC & _ & _ & _ & _ & _ & HEn & _ & HAz & HIp & _ & _ & _ & HT & _).
  destruct (applyDeltas_fields d props)
    as (_ & _ & _ & _ & _ & _ & _ & _ & _ & _ & _ & GC & GT & GAz & GIp).
  destruct (applyDeltas_autoscale d props) as (_ & GEn & _).
  rewrite HC, HAz, HIp, HT, HEn, GC, GT, GAz, GIp, GEn. unfold HasChange.
  repeat split; intros H; case_bool_decide; try reflexivity; done.
Qed.

Lemma update_keeps_creation_only_fields_witness :
  exists p,
    buildUpdatePayload
      (exampleData (exampleConfig false 3 0 0 Regular "" float_zero ∅)
                   (exampleConfig false 4 0 0 Spot Delete half ∅))
      (observedProps (Some false) None None) = inr p /\
    ScaleSetPriority p = Regular /\ ScaleSetEvictionPolicy p = "" /\
    SpotMaxPrice p = None /\ MaxPods p = Some 110%Z.
Proof.
  destruct (buildUpdatePayload _ _) as [e | p] eqn:Hp;
    [vm_compute in Hp; discriminate |].
  exists p. split; [reflexivity |].
  destruct (update_keeps_creation_only_fields _ _ p Hp)
    as (_ & _ & _ & Hpods & _ & _ & Hprio & Hev & Hprice & _).
  rewrite Hpods, Hprio, Hev, Hprice. repeat split.
Defined.

Lemma update_patches_changed_keys_only_witness :
  exists p,
    buildUpdatePayload
      (exampleData (exampleConfig false 3 0 0 Regular "" float_zero ∅)
                   (exampleConfig false 4 0 0 Regular "" float_zero ∅))
      (observedProps (Some false) None None) = inr p /\
    Count p = Some 4%Z /\ Tags p = None.
Proof.
  destruct (buildUpdatePayload _ _) as [e | p] eqn:Hp;
    [vm_compute in Hp; discriminate |].
  exists p. split; [reflexivity |].
  destruct (update_patches_changed_keys_only _ _ p Hp) as (_ & Hcount & Htags & _).
  split; [apply Hcount; discriminate | apply Htags; reflexivity].
Defined.

(** X7. An update payload that says auto-scaling is on carries both bounds,
    neither of them 0, with the minimum not above the maximum. *)
Theorem update_payload_bounds_when_enabled (d : ResourceData)
  (props p : ManagedClusterAgentPoolProfileProperties) :
  buildUpdatePayload d props = inr p ->
  deref false (EnableAutoScaling p) = true ->
  exists mn mx, MinCount p = Some mn /\ MaxCount p = Some mx /\
                mn <> 0%Z /\ mx <> 0%Z /\ (mn <= mx)%Z.
Proof.
  intros Hp Hon.
  destruct (buildUpdatePayload_frame d props p Hp)
    as (_ & _ & _ & _ & _ & _ & HEn & _).
  rewrite HEn, <- mergedEnabled_payload in Hon.
  rewrite buildUpdatePayload_cases, Hon in Hp.
  unfold mergedMax, mergedMin in Hp.
  destruct (MaxCount (snd (applyDeltas d props))) as [mx |] eqn:Hmx;
    destruct (MinCount (snd (applyDeltas d props))) as [mn |] eqn:Hmn;
    simpl in Hp; try discriminate;
    repeat match type of Hp with
           | context [(?a =? 0)%Z] => destruct (Z.eqb_spec a 0); try discriminate
           | context [(?a <? ?b)%Z] => destruct (Z.ltb_spec a b); try discriminate
           end.
  injection Hp as <-. exists mn, mx. rewrite Hmx, Hmn. repeat split; try done; lia.
Qed.

Lemma update_payload_bounds_when_enabled_witness :
  exists p,
    buildUpdatePayload
      (exampleData (exampleConfig false 3 0 0 Regular "" float_zero ∅)
                   (exampleConfig true 3 2 5 Regular "" float_zero ∅))
      (observedProps (Some false) None None) = inr p /\
    exists mn mx, MinCount p = Some mn /\ MaxCount p = Some mx /\ (mn <= mx)%Z.
Proof.
  destruct (buildUpdatePayload _ _) as [e | p] eqn:Hp;
    [vm_compute in Hp; discriminate |].
  exists p. split; [reflexivity |].
  destruct (update_payload_bounds_when_enabled _ _ p Hp)
    as (mn & mx & Hmn & Hmx & _ & _ & Hle).
  - vm_compute in Hp. injection Hp as <-. reflexivity.
  - exists mn, mx. auto.
Defined.

(** X8. Create and update agree: the profile of an accepted create, for a
    declaration within the schema, passes the check of the update path when
    no key has changed, and the update would submit that very profile. *)
Theorem create_profile_stable_under_update (c : Config) (a : AgentPool)
  (p : ManagedClusterAgentPoolProfileProperties) (d : ResourceData) :
  schema_ok c ->
  buildCreatePayload c = inr a ->
  Properties a = Some p ->
  prior d = values d ->
  buildUpdatePayload d p = inr p.
Proof.
  intros Hok Ha Hprops Hsame.
  apply buildCreatePayload_inv in Ha as (p' & Hp & ->).
  injection Hprops as ->.
  destruct (createAutoScale_ok c p Hp) as (_ & HMax & HMin & Hbounds).
  assert (Hle : enable_auto_scaling c = true -> (min_count c <= max_count c)%Z).
  { intros He. rewrite createAutoScale_cases, He in Hp.
    destruct (max_count c <=? 0)%Z; [discriminate |].
    destruct (min_count c <=? 0)%Z; [discriminate |].
    destruct (Z.ltb_spec (max_count c) (min_count c)); [discriminate | lia]. }
  destruct (createAutoScale_frame c _ p Hp) as (_ & _ & _ & _ & _ & HEn & _).
  rewrite createProfile_eq in HEn. cbn [EnableAutoScaling] in HEn.
  assert (Hnone : applyDeltas d p = (enable_auto_scaling c, p)).
  { unfold applyDeltas, HasChange. rewrite Hsame, HEn.
    repeat (case_bool_decide; [done |]). reflexivity. }
  unfold buildUpdatePayload. rewrite Hnone.
  unfold reconcileAutoScale. rewrite HMax, HMin.
  destruct (enable_auto_scaling c).
  - destruct Hbounds as [Hmin Hmax]. specialize (Hle eq_refl).
    destruct (ok_max_count c Hok) as [H1 | H1]; [lia |].
    destruct (ok_min_count c Hok) as [H2 | H2]; [lia |].
    unfold IntBetween in *. rewrite !int32_small by lia.
    destruct (Z.eqb_spec (max_count c) 0); [lia |].
    destruct (Z.eqb_spec (min_count c) 0); [lia |].
    destruct (Z.ltb_spec (max_count c) (min_count c)); [lia | reflexivity].
  - simpl. f_equal. destruct p; unfold_setters. simpl in *. congruence.
Qed.

Lemma create_profile_stable_under_update_witness :
  exists a p,
    buildCreatePayload (exampleConfig true 0 2 5 Regular "" float_zero ∅) = inr a /\
    Properties a = Some p /\
    buildUpdatePayload
      (exampleData (exampleConfig true 2 2 5 Regular "" float_zero ∅)
                   (exampleConfig true 2 2 5 Regular "" float_zero ∅)) p = inr p.
Proof.
  eexists. eexists. split; [reflexivity |]. split; [reflexivity |].
  eapply (create_profile_stable_under_update
            (exampleConfig true 0 2 5 Regular "" float_zero ∅));
    [| reflexivity | reflexivity | reflexivity].
  constructor; simpl; unfold IntBetween, IntAtLeast, Linux, Regular;
    first [lia | discriminate | auto].
Defined.

(** ** Reading back what was created *)

Lemma int32_range (x : Z) : (- 2 ^ 31 <= int32 x < 2 ^ 31)%Z.
Proof.
  unfold int32.
  pose proof (Z.mod_pos_bound (x + 2 ^ 31) (2 ^ 32) ltac:(lia)). lia.
Qed.

Lemma int32_idempotent (x : Z) : int32 (int32 x) = int32 x.
Proof. apply int32_small, int32_range. Qed.

(** The values read back for the payload of an accepted declaration. *)
Lemma roundTrip_eq (id : NodePoolId.t) (cluster : ManagedCluster) (c : Config) :
  (exists a, buildCreatePayload c = inr a) ->
  roundTrip id cluster c =
    Some {| name := NodePoolId.Name id;
            kubernetes_cluster_id := deref "" (ClusterID cluster);
            node_count :=
              if enable_auto_scaling c && (node_count c =? 0)%Z
              then int32 (min_count c) else int32 (node_count c);
            tags := tags c;
            vm_size := vm_size c;
            availability_zones := availability_zones c;
            enable_auto_scaling := enable_auto_scaling c;
            enable_node_public_ip := enable_node_public_ip c;
            max_count := if enable_auto_scaling c then int32 (max_count c) else 0;
            max_pods :=
              if (0 <? int32 (max_pods c))%Z then int32 (max_pods c) else 0;
            min_count := if enable_auto_scaling c then int32 (min_count c) else 0;
            node_labels := node_labels c;
            node_taints := node_taints c;
            os_disk_size_gb :=
              if (0 <? os_disk_size_gb c)%Z then int32 (os_disk_size_gb c) else 0;
            os_type := os_type c;
            vnet_subnet_id := vnet_subnet_id c;
            priority := priority c;
            eviction_policy := eviction_policy c;
            max_bid_price :=
              if float_ne_zero (max_bid_price c) then max_bid_price c else float_zero |}.
Proof.
  intros [a Ha]. apply buildCreatePayload_inv in Ha as (p & Hp & _).
  unfold roundTrip, buildCreatePayload. rewrite Hp.
  unfold flatten. cbn [Properties].
  destruct (createAutoScale_ok c p Hp) as (HCount & HMax & HMin & _).
  destruct (createAutoScale_frame c _ p Hp)
    as (HVMSize & HDisk & HVnet & HPods & HOs & HEnable & _ & HAz & HIp & HPrio & HEv
        & HSpot & HTags & HLabels & HTaints).
  rewrite createProfile_eq in *.
  cbn [VMSize OsDiskSizeGB VnetSubnetID MaxPods OsType EnableAutoScaling
       AvailabilityZones EnableNodePublicIP ScaleSetPriority ScaleSetEvictionPolicy
       SpotMaxPrice Tags NodeLabels NodeTaints] in *.
  rewrite HCount, HMax, HMin, HVMSize, HDisk, HVnet, HPods, HOs, HEnable, HAz, HIp,
    HPrio, HEv, HSpot, HTags, HLabels, HTaints.
  f_equal. f_equal.
  - apply omap_id_fmap_Some.
  - apply slice_round_trip.
  - destruct (enable_auto_scaling c); reflexivity.
  - destruct (0 <? int32 (max_pods c))%Z; reflexivity.
  - destruct (enable_auto_scaling c); reflexivity.
  - apply labels_round_trip.
  - apply slice_round_trip.
  - destruct (0 <? os_disk_size_gb c)%Z; reflexivity.
  - apply string_round_trip.
  - destruct (float_ne_zero (max_bid_price c)); reflexivity.
Qed.

(** X9. No continual diff: for a declaration within the schema whose disk
    size fits 32 bits, the values read back after a create are themselves an
    accepted declaration, and creating from them reads back the same values. *)
Theorem read_back_is_fixed_point (id : NodePoolId.t) (cluster : ManagedCluster)
  (c c' : Config) :
  schema_ok c ->
  (os_disk_size_gb c < 2 ^ 31)%Z ->
  roundTrip id cluster c = Some c' ->
  roundTrip id cluster c' = Some c'.
Proof.
  intros Hok Hdisk Hc'.
  assert (Hacc : exists a, buildCreatePayload c = inr a).
  { unfold roundTrip in Hc'. destruct (buildCreatePayload c); [discriminate | eauto]. }
  rewrite (roundTrip_eq id cluster c Hacc) in Hc'.
  destruct Hacc as [a Ha]. apply buildCreatePayload_inv in Ha as (p & Hp & _).
  destruct (createAutoScale_ok c p Hp) as (_ & _ & _ & Hbounds).
  assert (Hle : enable_auto_scaling c = true -> (min_count c <= max_count c)%Z).
  { intros He. rewrite createAutoScale_cases, He in Hp.
    destruct (max_count c <=? 0)%Z; [discriminate |].
    destruct (min_count c <=? 0)%Z; [discriminate |].
    destruct (Z.ltb_spec (max_count c) (min_count c)); [discriminate | lia]. }
  assert (Hmin32 : int32 (min_count c) = min_count c).
  { apply int32_small.
    destruct (ok_min_count c Hok) as [-> | H]; [| unfold IntBetween in H]; lia. }
  assert (Hmax32 : int32 (max_count c) = max_count c).
  { apply int32_small.
    destruct (ok_max_count c Hok) as [-> | H]; [| unfold IntBetween in H]; lia. }
  assert (Hcount32 : int32 (node_count c) = node_count c).
  { apply int32_small.
    destruct (ok_node_count c Hok) as [-> | H]; [| unfold IntBetween in H]; lia. }
  assert (Hdisk32 : (0 < os_disk_size_gb c)%Z ->
                    int32 (os_disk_size_gb c) = os_disk_size_gb c).
  { intros H. apply int32_small. lia. }
  rewrite Hmin32, Hmax32, Hcount32 in Hc'.
  injection Hc' as <-.
  rewrite roundTrip_eq.
  - cbn [name kubernetes_cluster_id tags vm_size availability_zones
         enable_auto_scaling enable_node_public_ip max_count max_pods min_count
         node_labels node_taints os_disk_size_gb os_type vnet_subnet_id priority
         eviction_policy max_bid_price node_count].
    f_equal. f_equal.
    + destruct (enable_auto_scaling c); simpl.
      * destruct Hbounds as [Hmin Hmax].
        destruct (Z.eqb_spec (node_count c) 0) as [H0 | H0].
        -- destruct (Z.eqb_spec (min_count c) 0); [lia |]. exact Hmin32.
        -- destruct (Z.eqb_spec (node_count c) 0); [lia |]. exact Hcount32.
      * exact Hcount32.
    + destruct (enable_auto_scaling c); [exact Hmax32 | reflexivity].
    + destruct (Z.ltb_spec 0 (int32 (max_pods c))) as [Hpos | Hzero].
      * rewrite int32_idempotent.
        destruct (Z.ltb_spec 0 (int32 (max_pods c))); [reflexivity | lia].
      * reflexivity.
    + destruct (enable_auto_scaling c); [exact Hmin32 | reflexivity].
    + destruct (Z.ltb_spec 0 (os_disk_size_gb c)) as [Hpos | Hzero].
      * rewrite (Hdisk32 Hpos).
        destruct (Z.ltb_spec 0 (os_disk_size_gb c)); [exact (Hdisk32 Hpos) | lia].
      * reflexivity.
    + destruct (float_ne_zero (max_bid_price c)) eqn:Hf; [rewrite Hf |]; reflexivity.
  - unfold buildCreatePayload. rewrite createAutoScale_cases.
    cbn [enable_auto_scaling max_count min_count node_count].
    destruct (enable_auto_scaling c).
    + destruct Hbounds as [Hmin Hmax]. specialize (Hle eq_refl).
      destruct (Z.leb_spec (max_count c) 0); [lia |].
      destruct (Z.leb_spec (min_count c) 0); [lia |].
      destruct (Z.ltb_spec (max_count c) (min_count c)); [lia | eauto].
    + simpl. eauto.
Qed.

Lemma read_back_is_fixed_point_witness :
  exists c',
    roundTrip (NodePoolId.mk "group1" "cluster1" "pool1")
      (exampleCluster VirtualMachineScaleSets)
      (exampleConfig true 0 2 5 Regular "" float_zero ∅) = Some c' /\
    roundTrip (NodePoolId.mk "group1" "cluster1" "pool1")
      (exampleCluster VirtualMachineScaleSets) c' = Some c' /\
    node_count c' = 2%Z.
Proof.
  eexists. split; [reflexivity |]. split; [| reflexivity].
  apply (read_back_is_fixed_point (NodePoolId.mk "group1" "cluster1" "pool1")
           (exampleCluster VirtualMachineScaleSets)
           (exampleConfig true 0 2 5 Regular "" float_zero ∅));
    [| simpl; lia | reflexivity].
  constructor; simpl; unfold IntBetween, IntAtLeast, Linux, Regular;
    first [lia | discriminate | auto].
Defined.

(** ** The parent check *)

(** X10. The parent passes the compatibility check of the create path
    exactly when it has properties, a pool list, and in that list a pool of
    the scale-set type; pools of other types before or after it do not
    matter. *)
Theorem defaultPoolIsVMSS_true_iff (cluster : ManagedCluster) :
  defaultPoolIsVMSS cluster = true <->
  exists props pools p,
    ClusterProperties cluster = Some props /\
    AgentPoolProfiles props = Some pools /\
    In p pools /\ PoolType p = VirtualMachineScaleSets.
Proof.
  assert (Hany : forall pools,
            anyPoolIsVMSS pools = true <->
            exists p, In p pools /\ PoolType p = VirtualMachineScaleSets).
  { induction pools as [| q rest IH]; simpl.
    - split; [discriminate | intros (p & [] & _)].
    - destruct (String.eqb_spec (PoolType q) VirtualMachineScaleSets) as [He | Hne].
      + split; [eauto | reflexivity].
      + rewrite IH. split.
        * intros (p & Hin & Hp). eauto.
        * intros (p & [-> | Hin] & Hp); [done | eauto]. }
  unfold defaultPoolIsVMSS.
  destruct (ClusterProperties cluster) as [props |].
  - destruct (AgentPoolProfiles props) as [pools |] eqn:Hpools.
    + rewrite Hany. split.
      * intros (p & Hin & Hp). exists props, pools, p. auto.
      * intros (props' & pools' & p & [= <-] & Hpools' & Hin & Hp).
        rewrite Hpools in Hpools'. injection Hpools' as <-. eauto.
    + split; [discriminate |].
      intros (props' & pools' & p & [= <-] & Hpools' & _). congruence.
  - split; [discriminate | intros (? & ? & ? & [=] & _)].
Qed.

(** X21. Update followed by read: when the recorded values are those
    reflected from the fetched pool and the declaration is within the schema,
    reflecting the pool an accepted update submits yields the declared value of
    every key the update manages (count, tags, zones, auto-scaling flag and
    bounds, public-IP flag) and the recorded value of every other key. *)
Theorem update_round_trip (id : NodePoolId.t) (cluster : ManagedCluster)
  (fetched : AgentPool) (props p : ManagedClusterAgentPoolProfileProperties)
  (d : ResourceData) :
  schema_ok (values d) ->
  Properties fetched = Some props ->
  flatten id cluster fetched = Some (prior d) ->
  buildUpdatePayload d props = inr p ->
  exists c',
    flatten id cluster
      {| ID := ID fetched; Name := Name fetched; Properties := Some p |} = Some c' /\
    (node_count c' = node_count (values d) /\
     tags c' = tags (values d) /\
     availability_zones c' = availability_zones (values d) /\
     enable_auto_scaling c' = enable_auto_scaling (values d) /\
     enable_node_public_ip c' = enable_node_public_ip (values d) /\
     max_count c' = max_count (values d) /\
     min_count c' = min_count (values d)) /\
    (name c' = name (prior d) /\
     kubernetes_cluster_id c' = kubernetes_cluster_id (prior d) /\
     vm_size c' = vm_size (prior d) /\
     max_pods c' = max_pods (prior d) /\
     node_labels c' = node_labels (prior d) /\
     node_taints c' = node_taints (prior d) /\
     os_disk_size_gb c' = os_disk_size_gb (prior d) /\
     os_type c' = os_type (prior d) /\
     vnet_subnet_id c' = vnet_subnet_id (prior d) /\
     priority c' = priority (prior d) /\
     eviction_policy c' = eviction_policy (prior d) /\
     max_bid_price c' = max_bid_price (prior d)).
Proof.
  intros Hok Hprops Hsync Hp.
  unfold flatten in *. rewrite Hprops in Hsync. cbn [Properties].
  injection Hsync as Hprior.
  eexists. split; [reflexivity |].
  pose proof (f_equal node_count Hprior) as Pcount.
  pose proof (f_equal tags Hprior) as Ptags.
  pose proof (f_equal availability_zones Hprior) as Paz.
  pose proof (f_equal enable_auto_scaling Hprior) as Pen.
  pose proof (f_equal enable_node_public_ip Hprior) as Pip.
  pose proof (f_equal max_count Hprior) as Pmax.
  pose proof (f_equal min_count Hprior) as Pmin.
  cbn [node_count tags availability_zones enable_auto_scaling enable_node_public_ip
       max_count min_count] in Pcount, Ptags, Paz, Pen, Pip, Pmax, Pmin.
  assert (Hin : in_sync d props).
  { unfold in_sync. rewrite <- Pen, <- Pmax, <- Pmin. repeat split. }
  destruct (merged_in_sync d props Hok Hin) as (Hen & Hmax & Hmin).
  destruct (buildUpdatePayload_frame d props p Hp)
    as (HC & H1 & H2 & H3 & H4 & H5 & HEn & H6 & HAz & HIp & H7 & H8 & H9 & HT & H10
        & H11).
  destruct (applyDeltas_fields d props)
    as (G1 & G2 & G3 & G4 & G5 & G6 & G7 & G8 & G9 & G10 & G11 & GC & GT & GAz & GIp).
  cbn [name kubernetes_cluster_id tags vm_size availability_zones enable_auto_scaling
       enable_node_public_ip max_count max_pods min_count node_labels node_taints
       os_disk_size_gb os_type vnet_subnet_id priority eviction_policy max_bid_price
       node_count].
  rewrite HC, H1, H2, H3, H4, H5, HEn, HAz, HIp, H7, H8, H9, HT, H10, H11.
  rewrite G1, G2, G3, G4, G5, G7, G8, G9, G10, G11, GC, GT, GAz, GIp.
  rewrite <- mergedEnabled_payload, Hen.
  split; [| rewrite <- Hprior; repeat split].
  unfold HasChange.
  repeat split.
  - case_bool_decide as H; simpl; [| congruence].
    apply int32_small.
    destruct (ok_node_count _ Hok) as [-> | Hb]; [| unfold IntBetween in Hb]; lia.
  - case_bool_decide as H; simpl; [apply omap_id_fmap_Some | congruence].
  - case_bool_decide as H; simpl; [reflexivity | congruence].
  - case_bool_decide as H; simpl; [reflexivity | congruence].
  - rewrite buildUpdatePayload_cases, Hen in Hp.
    destruct (enable_auto_scaling (values d)).
    + destruct (mergedMax d props =? 0)%Z; [discriminate |].
      destruct (mergedMin d props =? 0)%Z; [discriminate |].
      destruct (mergedMax d props <? mergedMin d props)%Z; [discriminate |].
      injection Hp as <-. exact Hmax.
    + destruct (Z.ltb_spec 0 (mergedMin d props)), (Z.ltb_spec 0 (mergedMax d props));
        try discriminate.
      injection Hp as <-. unfold_setters.
      destruct (ok_max_count _ Hok) as [H' | H']; [| unfold IntBetween in H']; lia.
  - rewrite buildUpdatePayload_cases, Hen in Hp.
    destruct (enable_auto_scaling (values d)).
    + destruct (mergedMax d props =? 0)%Z; [discriminate |].
      destruct (mergedMin d props =? 0)%Z; [discriminate |].
      destruct (mergedMax d props <? mergedMin d props)%Z; [discriminate |].
      injection Hp as <-. exact Hmin.
    + destruct (Z.ltb_spec 0 (mergedMin d props)), (Z.ltb_spec 0 (mergedMax d props));
        try discriminate.
      injection Hp as <-. unfold_setters.
      destruct (ok_min_count _ Hok) as [H' | H']; [| unfold IntBetween in H']; lia.
Qed.

Lemma update_round_trip_witness :
  exists p c',
    buildUpdatePayload (exampleData (readBackExample 3) (readBackExample 4))
      (observedProps (Some false) None None) = inr p /\
    flatten (NodePoolId.mk "group1" "cluster1" "pool1")
      (exampleCluster VirtualMachineScaleSets)
      {| ID := Some "pool1-id"; Name := Some "pool1"; Properties := Some p |} = Some c' /\
    node_count c' = 4%Z /\ max_pods c' = 110%Z.
Proof.
  destruct (buildUpdatePayload _ _) as [e | p] eqn:Hp;
    [vm_compute in Hp; discriminate |].
  destruct (update_round_trip (NodePoolId.mk "group1" "cluster1" "pool1")
              (exampleCluster VirtualMachineScaleSets)
              (observedPool (Some (observedProps (Some false) None None)))
              (observedProps (Some false) None None) p
              (exampleData (readBackExample 3) (readBackExample 4)))
    as (c' & Hc' & (Hcount & _) & (_ & _ & _ & Hpods & _)).
  - constructor; simpl; unfold IntBetween, IntAtLeast, Linux, Regular;
      first [lia | discriminate | auto].
  - reflexivity.
  - reflexivity.
  - exact Hp.
  - exists p, c'. split; [reflexivity |]. split; [exact Hc' |].
    split; [exact Hcount | exact Hpods].
Defined.

(** * Further properties of the four operations *)

Section FurtherRuns.

Context {S : Type} (h : handler S).
Variable KubernetesClusterID : string -> error + ClusterId.t.
Variable KubernetesNodePoolID : string -> error + NodePoolId.t.

Let Create := resourceArmKubernetesClusterNodePoolCreate KubernetesClusterID KubernetesNodePoolID.
Let Read := resourceArmKubernetesClusterNodePoolRead KubernetesNodePoolID.
Let Update := resourceArmKubernetesClusterNodePoolUpdate KubernetesNodePoolID.
Let Delete_ := resourceArmKubernetesClusterNodePoolDelete KubernetesNodePoolID.

Ltac reply :=
  match goal with
  | |- context [onClustersGet h ?a ?b ?s] =>
      destruct (onClustersGet h a b s) as [[? [?|] ?] ?] eqn:?
  | |- context [onPoolsGet h ?a ?b ?c ?s] =>
      destruct (onPoolsGet h a b c s) as [[? [?|] ?] ?] eqn:?
  | |- context [onCreateOrUpdate h ?a ?b ?c ?p ?s] =>
      destruct (onCreateOrUpdate h a b c p s) as [[?|] ?] eqn:?
  | |- context [onDelete h ?a ?b ?c ?s] =>
      destruct (onDelete h a b c s) as [[?|] ?] eqn:?
  | |- context [onWait h ?s] =>
      destruct (onWait h s) as [[?|] ?] eqn:?
  end; simpl.

Ltac branch :=
  match goal with
  | |- context [if ?b then _ else _] => destruct b eqn:?; simpl
  end.

Lemma run_cons_eq {A : Type} (x : A * list call) (c : call) :
  (let '(a, log) := x in (a, c :: log)) = (fst x, c :: snd x).
Proof. destruct x; reflexivity. Qed.

Lemma filter_mutating_read (d : ResourceData) (s : S) :
  List.filter mutating (snd (run h (Read d) s)) = [].
Proof.
  unfold Read, resourceArmKubernetesClusterNodePoolRead.
  destruct (KubernetesNodePoolID _); simpl; [reflexivity |].
  reply; [branch; reflexivity |].
  reply; [branch; reflexivity |].
  destruct (flatten _ _ _); reflexivity.
Qed.

(** X11. A read only reads: it fetches the cluster, then at most the pool,
    and issues no other call, whatever the remote side answers. *)
Theorem read_only_reads (d : ResourceData) (s : S) :
  snd (run h (Read d) s) = [] \/
  exists id,
    KubernetesNodePoolID (Id d) = inr id /\
    (snd (run h (Read d) s) =
       [CallClustersGet (NodePoolId.ResourceGroup id) (NodePoolId.ClusterName id)] \/
     snd (run h (Read d) s) =
       [CallClustersGet (NodePoolId.ResourceGroup id) (NodePoolId.ClusterName id);
        CallPoolsGet (NodePoolId.ResourceGroup id) (NodePoolId.ClusterName id)
          (NodePoolId.Name id)]).
Proof.
  unfold Read, resourceArmKubernetesClusterNodePoolRead.
  destruct (KubernetesNodePoolID _) as [e | id]; simpl; [left; reflexivity |].
  right. exists id. split; [reflexivity |].
  reply; [branch; left; reflexivity |].
  reply; [branch; right; reflexivity |].
  destruct (flatten _ _ _); right; reflexivity.
Qed.


(** X13. Unlike a read, a create treats any failure of the parent fetch as
    an error, a not-found answer included, and stops after that one call. *)
Theorem create_parent_fetch_failure (d : ResourceData) (s s1 : S)
  (cid : ClusterId.t) (cluster : Response ManagedCluster) :
  KubernetesClusterID (kubernetes_cluster_id (values d)) = inr cid ->
  onClustersGet h (ClusterId.ResourceGroup cid) (ClusterId.Name cid) s = (cluster, s1) ->
  err cluster <> None ->
  run h (Create d) s =
    ((Failure (if ResponseWasNotFound cluster then ClusterNotFound
               else RetrievingExistingCluster), d),
     [CallClustersGet (ClusterId.ResourceGroup cid) (ClusterId.Name cid)]).
Proof.
  intros Hid Hget Herr.
  unfold Create, resourceArmKubernetesClusterNodePoolCreate.
  rewrite Hid. simpl. rewrite Hget.
  destruct (err cluster); [| done].
  destruct (ResponseWasNotFound cluster); reflexivity.
Qed.

(** X14. The guard against adopting a pool: for a new resource under a
    compatible parent, a pool of that name that already has an identifier
    makes the create fail with the import error after the two fetches, and
    nothing is submitted.  A look-up error other than not-found fails as
    well. *)
Theorem create_existing_pool_rejected (d : ResourceData) (s s1 s2 : S)
  (cid : ClusterId.t) (cluster : Response ManagedCluster)
  (existing : Response AgentPool) :
  KubernetesClusterID (kubernetes_cluster_id (values d)) = inr cid ->
  onClustersGet h (ClusterId.ResourceGroup cid) (ClusterId.Name cid) s = (cluster, s1) ->
  err cluster = None ->
  defaultPoolIsVMSS (result cluster) = true ->
  IsNewResource d = true ->
  onPoolsGet h (ClusterId.ResourceGroup cid) (ClusterId.Name cid) (name (values d)) s1
    = (existing, s2) ->
  let log := [CallClustersGet (ClusterId.ResourceGroup cid) (ClusterId.Name cid);
              CallPoolsGet (ClusterId.ResourceGroup cid) (ClusterId.Name cid)
                (name (values d))] in
  (err existing <> None -> ResponseWasNotFound existing = false ->
   run h (Create d) s = ((Failure CheckingPresence, d), log)) /\
  (forall i,
     err existing = None \/ ResponseWasNotFound existing = true ->
     ID (result existing) = Some i -> i <> "" ->
     run h (Create d) s = ((Failure (ImportAsExistsError i), d), log)).
Proof.
  intros Hid Hget Herr Hvmss Hnew Hget' log. subst log.
  unfold Create, resourceArmKubernetesClusterNodePoolCreate.
  rewrite Hid. simpl. rewrite Hget, Herr, Hvmss, Hnew. simpl. rewrite Hget'.
  split.
  - intros He Hnf. rewrite Hnf. case_bool_decide; [reflexivity | done].
  - intros i Hor Hi Hne. rewrite Hi.
    destruct (String.eqb_spec i ""); [done |].
    destruct Hor as [He | Hnf].
    + rewrite He. case_bool_decide; [done | reflexivity].
    + rewrite Hnf. rewrite andb_false_r. reflexivity.
Qed.

(** The tail of a create, from translation on: it submits the built payload
    once, or it fails without submitting. *)
Lemma createSubmit_mutations (rg cn : string) (d : ResourceData) (s : S) :
  (List.filter mutating
     (snd (run h (createSubmit KubernetesNodePoolID rg cn d) s)) = [] /\
   fst (fst (run h (createSubmit KubernetesNodePoolID rg cn d) s)) <> Success) \/
  (exists a, buildCreatePayload (values d) = inr a /\
     List.filter mutating
       (snd (run h (createSubmit KubernetesNodePoolID rg cn d) s)) =
       [CallCreateOrUpdate rg cn (name (values d)) a]).
Proof.
  unfold createSubmit.
  destruct (buildCreatePayload (values d)) as [e | a]; simpl; [left; done |].
  right. exists a. split; [reflexivity |].
  reply; [reflexivity |].
  reply; [reflexivity |].
  reply; [reflexivity |].
  destruct (ID _) as [i |]; simpl; [| reflexivity].
  match goal with
  | |- context [run h ?p ?s'] =>
      pose proof (filter_mutating_read (SetId i d) s') as Hread;
      unfold Read in Hread; destruct (run h p s') as [r log]
  end.
  simpl in *. rewrite Hread. reflexivity.
Qed.

(** A create either fails during its reads, or reaches the translation after
    one or two reads. *)
Lemma create_run_shape (d : ResourceData) (s : S) :
  (exists e pre,
     run h (Create d) s = ((Failure e, d), pre) /\ List.filter mutating pre = []) \/
  (exists cid pre s0,
     KubernetesClusterID (kubernetes_cluster_id (values d)) = inr cid /\
     List.filter mutating pre = [] /\
     run h (Create d) s =
       (fst (run h (createSubmit KubernetesNodePoolID (ClusterId.ResourceGroup cid)
                      (ClusterId.Name cid) d) s0),
        (pre ++ snd (run h (createSubmit KubernetesNodePoolID
                              (ClusterId.ResourceGroup cid) (ClusterId.Name cid) d) s0))%list)).
Proof.
  unfold Create, resourceArmKubernetesClusterNodePoolCreate.
  destruct (KubernetesClusterID _) as [e | cid]; simpl; [left; eauto |].
  assert (Hgo : forall pre s0 r,
    List.filter mutating pre = [] ->
    r = (fst (run h (createSubmit KubernetesNodePoolID (ClusterId.ResourceGroup cid)
                       (ClusterId.Name cid) d) s0),
         (pre ++ snd (run h (createSubmit KubernetesNodePoolID
                               (ClusterId.ResourceGroup cid) (ClusterId.Name cid) d) s0))%list) ->
    (exists e pre0, r = ((Failure e, d), pre0) /\ List.filter mutating pre0 = []) \/
    (exists cid0 pre0 s1,
       @inr error ClusterId.t cid = inr cid0 /\
       List.filter mutating pre0 = [] /\
       r = (fst (run h (createSubmit KubernetesNodePoolID (ClusterId.ResourceGroup cid0)
                          (ClusterId.Name cid0) d) s1),
            (pre0 ++ snd (run h (createSubmit KubernetesNodePoolID
                                   (ClusterId.ResourceGroup cid0) (ClusterId.Name cid0) d)
                            s1))%list))).
  { intros pre s0 r Hpre ->. right. exists cid, pre, s0. auto. }
  reply; [branch; left; eauto |].
  destruct (defaultPoolIsVMSS _); simpl; [| left; eauto].
  destruct (IsNewResource d); simpl.
  - reply.
    + branch; [left; eauto |].
      destruct (ID _) as [i |]; simpl.
      * destruct (String.eqb i ""); simpl; [| left; eauto].
        eapply (Hgo [_; _]); cycle 1; [rewrite !run_cons_eq |]; reflexivity.
      * eapply (Hgo [_; _]); cycle 1; [rewrite !run_cons_eq |]; reflexivity.
    + destruct (ID _) as [i |]; simpl.
      * destruct (String.eqb i ""); simpl; [| left; eauto].
        eapply (Hgo [_; _]); cycle 1; [rewrite !run_cons_eq |]; reflexivity.
      * eapply (Hgo [_; _]); cycle 1; [rewrite !run_cons_eq |]; reflexivity.
  - eapply (Hgo [_]); cycle 1; [rewrite !run_cons_eq |]; reflexivity.
Qed.

(** X15. A create issues at most one mutating call, and when it does, that
    call submits the payload built from the declaration under the declared
    name; a create never reports success without having submitted it. *)
Theorem create_mutates_at_most_once (d : ResourceData) (s : S) :
  (List.filter mutating (snd (run h (Create d) s)) = [] /\
   fst (fst (run h (Create d) s)) <> Success) \/
  (exists cid a,
     KubernetesClusterID (kubernetes_cluster_id (values d)) = inr cid /\
     buildCreatePayload (values d) = inr a /\
     List.filter mutating (snd (run h (Create d) s)) =
       [CallCreateOrUpdate (ClusterId.ResourceGroup cid) (ClusterId.Name cid)
          (name (values d)) a]).
Proof.
  destruct (create_run_shape d s) as [(e & pre & -> & Hpre) | (cid & pre & s0 & Hid & Hpre & ->)].
  - left. simpl. split; [exact Hpre | done].
  - simpl. rewrite List.filter_app, Hpre. simpl.
    destruct (createSubmit_mutations (ClusterId.ResourceGroup cid) (ClusterId.Name cid) d s0)
      as [H | (a & Ha & H)]; [left; exact H |].
    right. exists cid, a. auto.
Qed.

(** X16. End to end: for a new resource under a compatible parent, with no
    pool of that name yet and an accepted declaration, once the submission and
    the wait succeed the create fetches the pool again.  If the pool then
    carries an identifier, that identifier is recorded and the create ends as
    the read under it does; if it carries none, the create fails although the
    pool has been submitted. *)
Theorem create_completes_with_read (d : ResourceData) (s s1 s2 s3 s4 s5 : S)
  (cid : ClusterId.t) (cluster : Response ManagedCluster)
  (existing read : Response AgentPool) (a : AgentPool) :
  let rg := ClusterId.ResourceGroup cid in
  let cn := ClusterId.Name cid in
  let n := name (values d) in
  KubernetesClusterID (kubernetes_cluster_id (values d)) = inr cid ->
  onClustersGet h rg cn s = (cluster, s1) ->
  err cluster = None ->
  defaultPoolIsVMSS (result cluster) = true ->
  IsNewResource d = true ->
  onPoolsGet h rg cn n s1 = (existing, s2) ->
  err existing = None \/ ResponseWasNotFound existing = true ->
  ID (result existing) = None \/ ID (result existing) = Some "" ->
  buildCreatePayload (values d) = inr a ->
  onCreateOrUpdate h rg cn n a s2 = (None, s3) ->
  onWait h s3 = (None, s4) ->
  onPoolsGet h rg cn n s4 = (read, s5) ->
  err read = None ->
  let calls := [CallClustersGet rg cn; CallPoolsGet rg cn n;
                CallCreateOrUpdate rg cn n a; CallWait; CallPoolsGet rg cn n] in
  (forall i, ID (result read) = Some i ->
     run h (Create d) s =
       (fst (run h (Read (SetId i d)) s5),
        (calls ++ snd (run h (Read (SetId i d)) s5))%list)) /\
  (ID (result read) = None ->
     run h (Create d) s = ((Failure CannotReadID, d), calls)).
Proof.
  intros rg cn n Hid Hget Herr Hvmss Hnew Hget' Hguard Hnoid Ha Hsub Hwait Hread Herr'
    calls.
  subst rg cn n calls.
  assert (Hpass : bool_decide (err existing <> None)
                  && negb (ResponseWasNotFound existing) = false).
  { destruct Hguard as [-> | ->]; [case_bool_decide; done | apply andb_false_r]. }
  unfold Create, resourceArmKubernetesClusterNodePoolCreate, createSubmit.
  rewrite Hid, Ha. simpl. rewrite Hget, Herr, Hvmss, Hnew. simpl.
  rewrite Hget', Hpass.
  split.
  - intros i Hi.
    destruct Hnoid as [-> | ->]; simpl; rewrite Hsub; simpl; rewrite Hwait; simpl;
      rewrite Hread, Herr', Hi; rewrite !run_cons_eq; reflexivity.
  - intros Hi.
    destruct Hnoid as [-> | ->]; simpl; rewrite Hsub; simpl; rewrite Hwait; simpl;
      rewrite Hread, Herr', Hi; reflexivity.
Qed.

(** ** Update *)

(** X17. An update needs the pool to exist: any failure of the fetch, a
    not-found answer included, and a pool without properties end the update in
    an error after that one call. *)
Theorem update_fetch_failure (d : ResourceData) (s s1 : S) (id : NodePoolId.t)
  (existing : Response AgentPool) :
  let rg := NodePoolId.ResourceGroup id in
  let cn := NodePoolId.ClusterName id in
  let n := NodePoolId.Name id in
  KubernetesNodePoolID (Id d) = inr id ->
  onPoolsGet h rg cn n s = (existing, s1) ->
  (err existing <> None ->
   run h (Update d) s =
     ((Failure (if ResponseWasNotFound existing then NodePoolNotFound
                else RetrievingNodePool), d), [CallPoolsGet rg cn n])) /\
  (err existing = None -> Properties (result existing) = None ->
   run h (Update d) s = ((Failure PropertiesNil, d), [CallPoolsGet rg cn n])).
Proof.
  intros rg cn n Hid Hget. subst rg cn n.
  unfold Update, resourceArmKubernetesClusterNodePoolUpdate.
  rewrite Hid. simpl. rewrite Hget. split.
  - intros Herr. destruct (err existing); [| done].
    destruct (ResponseWasNotFound existing); reflexivity.
  - intros -> ->. reflexivity.
Qed.

(** X18. Once the merged payload is accepted, the update submits the fetched
    pool with its identifier and name unchanged and the merged properties put
    in; when the submission and the wait succeed, the update ends as the read
    under the same identifier does. *)
Theorem update_completes_with_read (d : ResourceData) (s s1 s2 s3 : S)
  (id : NodePoolId.t) (existing : Response AgentPool)
  (props p : ManagedClusterAgentPoolProfileProperties) :
  let rg := NodePoolId.ResourceGroup id in
  let cn := NodePoolId.ClusterName id in
  let n := NodePoolId.Name id in
  let submitted := {| ID := ID (result existing); Name := Name (result existing);
                      Properties := Some p |} in
  KubernetesNodePoolID (Id d) = inr id ->
  onPoolsGet h rg cn n s = (existing, s1) ->
  err existing = None ->
  Properties (result existing) = Some props ->
  buildUpdatePayload d props = inr p ->
  onCreateOrUpdate h rg cn n submitted s1 = (None, s2) ->
  onWait h s2 = (None, s3) ->
  run h (Update d) s =
    (fst (run h (Read d) s3),
     ([CallPoolsGet rg cn n; CallCreateOrUpdate rg cn n submitted; CallWait]
      ++ snd (run h (Read d) s3))%list).
Proof.
  intros rg cn n submitted Hid Hget Herr Hprops Hp Hsub Hwait.
  subst rg cn n submitted.
  unfold Update, resourceArmKubernetesClusterNodePoolUpdate.
  rewrite Hid. simpl. rewrite Hget, Herr, Hprops, Hp. simpl.
  rewrite Hsub. simpl. rewrite Hwait. rewrite !run_cons_eq. reflexivity.
Qed.


(** ** Delete *)

(** X20. A delete submits the deletion without looking the pool up first and
    waits for it; an error of either step, whatever its kind, is returned, and
    the resource data is handed back unchanged in every case. *)
Theorem delete_run (d : ResourceData) (s : S) :
  snd (fst (run h (Delete_ d) s)) = d /\
  (forall e, KubernetesNodePoolID (Id d) = inl e ->
     run h (Delete_ d) s = ((Failure e, d), [])) /\
  (forall id e1 s1,
     KubernetesNodePoolID (Id d) = inr id ->
     onDelete h (NodePoolId.ResourceGroup id) (NodePoolId.ClusterName id)
       (NodePoolId.Name id) s = (e1, s1) ->
     (e1 <> None ->
      run h (Delete_ d) s =
        ((Failure DeletingPool, d),
         [CallDelete (NodePoolId.ResourceGroup id) (NodePoolId.ClusterName id)
            (NodePoolId.Name id)])) /\
     (e1 = None ->
      forall e2 s2, onWait h s1 = (e2, s2) ->
        run h (Delete_ d) s =
          ((match e2 with Some _ => Failure WaitingForDeletion | None => Success end, d),
           [CallDelete (NodePoolId.ResourceGroup id) (NodePoolId.ClusterName id)
              (NodePoolId.Name id); CallWait]))).
Proof.
  unfold Delete_, resourceArmKubernetesClusterNodePoolDelete.
  split; [| split].
  - destruct (KubernetesNodePoolID _); simpl; [reflexivity |].
    reply; [reflexivity |]. reply; reflexivity.
  - intros e He. rewrite He. reflexivity.
  - intros id e1 s1 Hid Hdel. rewrite Hid. simpl. rewrite Hdel. split.
    + intros He. destruct e1; [reflexivity | done].
    + intros He e2 s2 Hwait. subst e1. simpl. rewrite Hwait. destruct e2; reflexivity.
Qed.

(** ** Identifiers that do not parse *)

(** X22. An identifier that does not parse stops the operation before any
    remote call: read, update and delete return the parse error of the
    resource identifier, create that of the declared cluster identifier, and
    the resource data is unchanged. *)
Theorem unparsable_identifier_no_call (d : ResourceData) (s : S) (e : error) :
  (KubernetesNodePoolID (Id d) = inl e ->
   run h (Read d) s = ((Failure e, d), []) /\
   run h (Update d) s = ((Failure e, d), []) /\
   run h (Delete_ d) s = ((Failure e, d), [])) /\
  (KubernetesClusterID (kubernetes_cluster_id (values d)) = inl e ->
   run h (Create d) s = ((Failure e, d), [])).
Proof.
  unfold Read, Update, Delete_, Create, resourceArmKubernetesClusterNodePoolRead,
    resourceArmKubernetesClusterNodePoolUpdate,
    resourceArmKubernetesClusterNodePoolDelete,
    resourceArmKubernetesClusterNodePoolCreate.
  split; intros He; rewrite He; repeat split.
Qed.

End FurtherRuns.

(** ** The further statements at concrete inputs *)


Lemma create_parent_fetch_failure_witness :
  run (constHandler (failed (exampleCluster VirtualMachineScaleSets) true)
                    (found absentPool) None None)
      (resourceArmKubernetesClusterNodePoolCreate exampleClusterID exampleNodePoolID
         (newData (exampleConfig false 3 0 0 Regular "" float_zero ∅)))
      tt =
    ((Failure ClusterNotFound, newData (exampleConfig false 3 0 0 Regular "" float_zero ∅)),
     [CallClustersGet "group1" "cluster1"]).
Proof.
  apply (create_parent_fetch_failure
           (constHandler (failed (exampleCluster VirtualMachineScaleSets) true)
                         (found absentPool) None None)
           exampleClusterID exampleNodePoolID
           (newData (exampleConfig false 3 0 0 Regular "" float_zero ∅))
           tt tt (ClusterId.mk "group1" "cluster1")
           (failed (exampleCluster VirtualMachineScaleSets) true));
    [reflexivity | reflexivity | discriminate].
Defined.

Lemma create_existing_pool_rejected_witness :
  run (constHandler (found (exampleCluster VirtualMachineScaleSets))
                    (found (observedPool None)) None None)
      (resourceArmKubernetesClusterNodePoolCreate exampleClusterID exampleNodePoolID
         (newData (exampleConfig false 3 0 0 Regular "" float_zero ∅)))
      tt =
    ((Failure (ImportAsExistsError "pool1-id"),
      newData (exampleConfig false 3 0 0 Regular "" float_zero ∅)),
     [CallClustersGet "group1" "cluster1"; CallPoolsGet "group1" "cluster1" "pool1"]).
Proof.
  apply (proj2 (create_existing_pool_rejected
           (constHandler (found (exampleCluster VirtualMachineScaleSets))
                         (found (observedPool None)) None None)
           exampleClusterID exampleNodePoolID
           (newData (exampleConfig false 3 0 0 Regular "" float_zero ∅))
           tt tt tt (ClusterId.mk "group1" "cluster1")
           (found (exampleCluster VirtualMachineScaleSets))
           (found (observedPool None))
           eq_refl eq_refl eq_refl eq_refl eq_refl eq_refl) "pool1-id");
    [left; reflexivity | reflexivity | discriminate].
Defined.

Lemma create_completes_with_read_witness :
  let r := run (scriptedHandler (found (exampleCluster VirtualMachineScaleSets))
                  (failed absentPool true)
                  (found (observedPool (Some (observedProps (Some false) None None)))))
               (resourceArmKubernetesClusterNodePoolCreate exampleClusterID
                  exampleNodePoolID
                  (newData (exampleConfig false 3 0 0 Regular "" float_zero ∅)))
               0%nat in
  fst (fst r) = Success /\ Id (snd (fst r)) = "pool1-id" /\
  map mutating (snd r) = [false; false; true; false; false; false; false].
Proof.
  intros r. subst r.
  rewrite (proj1 (create_completes_with_read
             (scriptedHandler (found (exampleCluster VirtualMachineScaleSets))
                (failed absentPool true)
                (found (observedPool (Some (observedProps (Some false) None None)))))
             exampleClusterID exampleNodePoolID
             (newData (exampleConfig false 3 0 0 Regular "" float_zero ∅))
             0%nat 0%nat 1%nat 1%nat 1%nat 2%nat
             (ClusterId.mk "group1" "cluster1")
             (found (exampleCluster VirtualMachineScaleSets))
             (failed absentPool true)
             (found (observedPool (Some (observedProps (Some false) None None))))
             _
             eq_refl eq_refl eq_refl eq_refl eq_refl eq_refl
             (or_intror eq_refl) (or_introl eq_refl)
             eq_refl eq_refl eq_refl eq_refl eq_refl) "pool1-id" eq_refl).
  vm_compute. repeat split.
Defined.

Lemma update_fetch_failure_witness :
  run (constHandler (found (exampleCluster VirtualMachineScaleSets))
                    (failed absentPool true) None None)
      (resourceArmKubernetesClusterNodePoolUpdate exampleNodePoolID
         (exampleData (exampleConfig false 3 0 0 Regular "" float_zero ∅)
                      (exampleConfig false 4 0 0 Regular "" float_zero ∅)))
      tt =
    ((Failure NodePoolNotFound,
      exampleData (exampleConfig false 3 0 0 Regular "" float_zero ∅)
                  (exampleConfig false 4 0 0 Regular "" float_zero ∅)),
     [CallPoolsGet "group1" "cluster1" "pool1"]).
Proof.
  apply (proj1 (update_fetch_failure
           (constHandler (found (exampleCluster VirtualMachineScaleSets))
                         (failed absentPool true) None None)
           exampleNodePoolID
           (exampleData (exampleConfig false 3 0 0 Regular "" float_zero ∅)
                        (exampleConfig false 4 0 0 Regular "" float_zero ∅))
           tt tt (NodePoolId.mk "group1" "cluster1" "pool1")
           (failed absentPool true) eq_refl eq_refl)).
  discriminate.
Defined.

Lemma update_completes_with_read_witness :
  let d := exampleData (exampleConfig false 3 0 0 Regular "" float_zero ∅)
                       (exampleConfig false 4 0 0 Regular "" float_zero ∅) in
  let r := run (constHandler (found (exampleCluster VirtualMachineScaleSets))
                  (found (observedPool (Some (observedProps (Some false) None None))))
                  None None)
               (resourceArmKubernetesClusterNodePoolUpdate exampleNodePoolID d) tt in
  fst (fst r) = Success /\
  map mutating (snd r) = [false; true; false; false; false].
Proof.
  intros d r. subst r d.
  destruct (buildUpdatePayload
              (exampleData (exampleConfig false 3 0 0 Regular "" float_zero ∅)
                           (exampleConfig false 4 0 0 Regular "" float_zero ∅))
              (observedProps (Some false) None None)) as [e | p] eqn:Hp;
    [vm_compute in Hp; discriminate |].
  rewrite (update_completes_with_read
             (constHandler (found (exampleCluster VirtualMachineScaleSets))
                (found (observedPool (Some (observedProps (Some false) None None))))
                None None)
             exampleNodePoolID
             (exampleData (exampleConfig false 3 0 0 Regular "" float_zero ∅)
                          (exampleConfig false 4 0 0 Regular "" float_zero ∅))
             tt tt tt tt (NodePoolId.mk "group1" "cluster1" "pool1")
             (found (observedPool (Some (observedProps (Some false) None None))))
             (observedProps (Some false) None None) p
             eq_refl eq_refl eq_refl eq_refl Hp eq_refl eq_refl).
  vm_compute. repeat split.
Defined.

Lemma delete_run_witness :
  run (constHandler (found (exampleCluster VirtualMachineScaleSets))
                    (found absentPool) None (Some "timeout"))
      (resourceArmKubernetesClusterNodePoolDelete exampleNodePoolID
         (exampleData (exampleConfig false 3 0 0 Regular "" float_zero ∅)
                      (exampleConfig false 3 0 0 Regular "" float_zero ∅)))
      tt =
    ((Failure WaitingForDeletion,
      exampleData (exampleConfig false 3 0 0 Regular "" float_zero ∅)
                  (exampleConfig false 3 0 0 Regular "" float_zero ∅)),
     [CallDelete "group1" "cluster1" "pool1"; CallWait]).
Proof.
  apply (proj2 (proj2 (proj2 (delete_run
           (constHandler (found (exampleCluster VirtualMachineScaleSets))
                         (found absentPool) None (Some "timeout"))
           exampleNodePoolID
           (exampleData (exampleConfig false 3 0 0 Regular "" float_zero ∅)
                        (exampleConfig false 3 0 0 Regular "" float_zero ∅))
           tt)) (NodePoolId.mk "group1" "cluster1" "pool1") None tt eq_refl eq_refl)
           eq_refl (Some "timeout") tt eq_refl).
Defined.

Lemma unparsable_identifier_no_call_witness :
  run (constHandler (found (exampleCluster VirtualMachineScaleSets))
                    (found absentPool) None None)
      (resourceArmKubernetesClusterNodePoolRead exampleNodePoolID
         (newData (exampleConfig false 3 0 0 Regular "" float_zero ∅)))
      tt =
    ((Failure (ParseError "empty id"),
      newData (exampleConfig false 3 0 0 Regular "" float_zero ∅)), []).
Proof.
  apply (proj1 (unparsable_identifier_no_call
           (constHandler (found (exampleCluster VirtualMachineScaleSets))
                         (found absentPool) None None)
           exampleClusterID exampleNodePoolID
           (newData (exampleConfig false 3 0 0 Regular "" float_zero ∅))
           tt (ParseError "empty id"))).
  reflexivity.
Defined.
